(** * dspy-text2cypher: schema introspection and the GraphRAG pipeline

    A shallow embedding of [src/utils.py] (the Kuzu catalog introspection)
    and [src/text2cypher.py] (the data model, the three model calls, query
    execution and the batch entry point), with the properties of the
    specification stated and proved over it. *)

From Stdlib Require Import ZArith Ascii String DecimalString.
From stdpp Require Import base list strings.

Open Scope string_scope.
Open Scope list_scope.

(** ** Python values

    The values that travel through the two files: scalars coming out of the
    database, lists, and the [dict]s (insertion ordered, string keyed) that
    [get_schema_dict] builds.  Floating-point and temporal scalars are left
    out: the code never looks inside a scalar. *)

#[local] Set Warnings "-register-all".

Inductive value : Type :=
  | VNone
  | VBool (b : bool)
  | VInt (z : Z)
  | VStr (s : string)
  | VList (l : list value)
  | VDict (d : list (string * value)).

(** A row of a query result is a Python list of column values. *)
Definition row : Type := list value.

(** ** Exceptions *)

(** The exception classes that occur, all of them subclasses of [Exception];
    [NotImplementedError] is a subclass of [RuntimeError], the others are
    unrelated to it. *)
Inductive exn_class : Type :=
  | RuntimeError
  | NotImplementedError
  | IndexError
  | KeyError
  | TypeError
  | ValueError
  | MemoryError.

Record exn : Type := Exn { exn_cls : exn_class; exn_msg : string }.

(** [isinstance(e, RuntimeError)], the test of an [except RuntimeError]. *)
Definition isinstance_RuntimeError (e : exn) : bool :=
  match exn_cls e with
  | RuntimeError | NotImplementedError => true
  | _ => false
  end.

(** The outcome of a call: it returns a value or raises. *)
Inductive result (A : Type) : Type :=
  | Return (a : A)
  | Raise (e : exn).
Arguments Return {A} a.
Arguments Raise {A} e.

#[global] Instance result_ret : MRet result := fun A a => Return a.
#[global] Instance result_bind : MBind result := fun A B f m =>
  match m with
  | Return a => f a
  | Raise e => Raise e
  end.

(** A comprehension or [for] loop whose body may raise: left to right, the
    first exception ends it. *)
Fixpoint for_each {A B : Type} (f : A → result B) (l : list A) : result (list B) :=
  match l with
  | [] => Return []
  | x :: l' =>
      y ← f x;
      ys ← for_each f l';
      mret (y :: ys)
  end.

(** [row[i]] *)
Definition list_getitem (r : row) (i : nat) : result value :=
  match r !! i with
  | Some v => Return v
  | None => Raise (Exn IndexError "list index out of range")
  end.

(** Lookup in a [dict] given as its items. *)
Fixpoint dict_get (d : list (string * value)) (k : string) : option value :=
  match d with
  | [] => None
  | (k', v) :: d' => if String.eqb k' k then Some v else dict_get d' k
  end.

(** [d[k]] *)
Definition dict_getitem (d : value) (k : string) : result value :=
  match d with
  | VDict items =>
      match dict_get items k with
      | Some v => Return v
      | None => Raise (Exn KeyError k)
      end
  | _ => Raise (Exn TypeError "object is not subscriptable")
  end.

(** ** utils.py: KuzuDatabaseManager *)

(** The connection is opened read-only: [conn.execute] is a function of the
    query text that returns the rows of the result or raises.  The rows are
    taken as fetched by the call: an error met while they are read counts as
    an error of the call (in [run_query] both stand in the same [try]). *)
Definition Connection : Type := string → result (list row).

Record KuzuDatabaseManager : Type := { conn : Connection }.

Section Introspection.

(** Python's [str], which the f-strings apply to the table name they
    interpolate. *)
Variable py_str : value → string.

Definition SHOW_NODE_TABLES : string :=
  "CALL SHOW_TABLES() WHERE type = 'NODE' RETURN *;".
Definition SHOW_REL_TABLES : string :=
  "CALL SHOW_TABLES() WHERE type = 'REL' RETURN *;".
Definition SHOW_CONNECTION (tbl_name : value) : string :=
  "CALL SHOW_CONNECTION('" +:+ py_str tbl_name +:+ "') RETURN *;".
Definition TABLE_INFO (tbl_name : value) : string :=
  "CALL TABLE_INFO('" +:+ py_str tbl_name +:+ "') RETURN *;".

(** [{"name": tbl_name, "from": row[0], "to": row[1]}] *)
Definition relationship_of (tbl_name : value) (r : row) : result value :=
  from ← list_getitem r 0;
  to ← list_getitem r 1;
  mret (VDict [("name", tbl_name); ("from", from); ("to", to)]).

(** The inner loop over the rows of one [SHOW_CONNECTION]. *)
Definition relationships_of (db : KuzuDatabaseManager) (tbl_name : value)
  : result (list value) :=
  response ← conn db (SHOW_CONNECTION tbl_name);
  for_each (relationship_of tbl_name) response.

(** [{"name": row[1], "type": row[2]}] *)
Definition property_of (r : row) : result value :=
  name ← list_getitem r 1;
  type ← list_getitem r 2;
  mret (VDict [("name", name); ("type", type)]).

(** The list that [x["properties"]], initially [[]], holds after the loop
    over [TABLE_INFO]. *)
Definition properties_of (db : KuzuDatabaseManager) (tbl_name : value)
  : result (list value) :=
  info ← conn db (TABLE_INFO tbl_name);
  for_each property_of info.

Definition node_schema_of (db : KuzuDatabaseManager) (node : value) : result value :=
  props ← properties_of db node;
  mret (VDict [("label", node); ("properties", VList props)]).

Definition edge_of (db : KuzuDatabaseManager) (rel : value) : result value :=
  label ← dict_getitem rel "name";
  from ← dict_getitem rel "from";
  to ← dict_getitem rel "to";
  name ← dict_getitem rel "name";
  props ← properties_of db name;
  mret (VDict [("label", label); ("from", from); ("to", to);
               ("properties", VList props)]).

Definition get_schema_dict (db : KuzuDatabaseManager) : result value :=
  response ← conn db SHOW_NODE_TABLES;
  nodes ← for_each (λ r, list_getitem r 1) response;
  response ← conn db SHOW_REL_TABLES;
  rel_tables ← for_each (λ r, list_getitem r 1) response;
  relationships ← for_each (relationships_of db) rel_tables;
  let relationships := concat relationships in
  node_schemas ← for_each (node_schema_of db) nodes;
  edges ← for_each (edge_of db) relationships;
  mret (VDict [("nodes", VList node_schemas); ("edges", VList edges)]).

End Introspection.

(** ** text2cypher.py: the data model

    The pydantic classes.  Two classes share the field names [label] and
    [properties], so the projections carry the class name. *)

Record Query : Type := { query : string }.

Record Property : Type := { Property_name : string; Property_type : string }.

Record Node : Type := {
  Node_label : string;
  Node_properties : option (list Property)
}.

Record Edge : Type := {
  Edge_label : string;
  Edge_from_ : Node;
  Edge_to : Node;
  Edge_properties : option (list Property)
}.

Record GraphSchema : Type := {
  nodes : list Node;
  edges : list Edge
}.

(** *** Validation

    How pydantic builds an instance from a [dict]: every field is read from
    the key that is its alias (its own name when it has none), a missing key
    or a value of the wrong type is a [ValidationError] (a [ValueError]), and
    keys that belong to no field are ignored. *)

Definition ValidationError (msg : string) : exn := Exn ValueError msg.

Definition field_required (items : list (string * value)) (key : string)
  : result value :=
  match dict_get items key with
  | Some v => Return v
  | None => Raise (ValidationError "Field required")
  end.

Definition validate_str (v : value) : result string :=
  match v with
  | VStr s => Return s
  | _ => Raise (ValidationError "Input should be a valid string")
  end.

(** A field of type [list[X] | None]. *)
Definition validate_optional_list {A : Type} (validate : value → result A)
  (v : value) : result (option (list A)) :=
  match v with
  | VNone => Return None
  | VList l => xs ← for_each validate l; mret (Some xs)
  | _ => Raise (ValidationError "Input should be a valid list")
  end.

Definition validate_list {A : Type} (validate : value → result A)
  (v : value) : result (list A) :=
  match v with
  | VList l => for_each validate l
  | _ => Raise (ValidationError "Input should be a valid list")
  end.

Definition Property_validate (v : value) : result Property :=
  match v with
  | VDict items =>
      name ← field_required items "name" ≫= validate_str;
      type ← field_required items "type" ≫= validate_str;
      mret {| Property_name := name; Property_type := type |}
  | _ => Raise (ValidationError "Input should be a valid dictionary")
  end.

Definition Node_validate (v : value) : result Node :=
  match v with
  | VDict items =>
      label ← field_required items "label" ≫= validate_str;
      properties ← field_required items "properties"
                     ≫= validate_optional_list Property_validate;
      mret {| Node_label := label; Node_properties := properties |}
  | _ => Raise (ValidationError "Input should be a valid dictionary")
  end.

(** The aliases of [Edge]: [from_: Node = Field(alias="from", ...)] and
    [to: Node = Field(alias="from", ...)]. *)
Definition Edge_from__alias : string := "from".
Definition Edge_to_alias : string := "from".

Definition Edge_validate (v : value) : result Edge :=
  match v with
  | VDict items =>
      label ← field_required items "label" ≫= validate_str;
      from_ ← field_required items Edge_from__alias ≫= Node_validate;
      to ← field_required items Edge_to_alias ≫= Node_validate;
      properties ← field_required items "properties"
                     ≫= validate_optional_list Property_validate;
      mret {| Edge_label := label; Edge_from_ := from_; Edge_to := to;
              Edge_properties := properties |}
  | _ => Raise (ValidationError "Input should be a valid dictionary")
  end.

Definition GraphSchema_validate (v : value) : result GraphSchema :=
  match v with
  | VDict items =>
      ns ← field_required items "nodes" ≫= validate_list Node_validate;
      es ← field_required items "edges" ≫= validate_list Edge_validate;
      mret {| nodes := ns; edges := es |}
  | _ => Raise (ValidationError "Input should be a valid dictionary")
  end.

(** A line break in a query text: a line feed or a carriage return. *)
Definition is_line_break (c : Ascii.ascii) : bool :=
  (Ascii.eqb c "010"%char) || (Ascii.eqb c "013"%char).

Fixpoint has_line_break (s : string) : bool :=
  match s with
  | EmptyString => false
  | String c s' => is_line_break c || has_line_break s'
  end.

(** ** text2cypher.py: the GraphRAG module *)

(** What [generate_answer] returns: a prediction with its [response]. *)
Record Prediction : Type := { response : string }.

(** What the run of a pipeline leaves behind: the calls made to the language
    model and the lines printed. *)
Inductive event : Type :=
  | CallPrune (question input_schema : string)
  | CallText2Cypher (question : string) (input_schema : GraphSchema)
  | CallGenerateAnswer (question cypher_query context : string)
  | Print (line : string)
  | PrintResults (results : list (result (option Prediction))).

Definition is_CallGenerateAnswer (ev : event) : bool :=
  match ev with
  | CallGenerateAnswer _ _ _ => true
  | _ => false
  end.

(** [[item for row in result for item in row]]: the comprehension appends
    item after item to the list it builds. *)
Definition flatten_rows (rows : list row) : list value :=
  foldl (λ acc r, foldl (λ acc item, acc ++ [item]) acc r) [] rows.

Section GraphRAG.

(** The language-model backend is a black box with a state of its own [W]
    (it may answer the same prompt differently the next time).  Each of
    the three predictors returns its output field or raises, for instance
    when the structured output does not parse. *)
Variable W : Type.
Variable prune_lm : W → string → string → result GraphSchema * W.
Variable text2cypher_lm : W → string → GraphSchema → result Query * W.
Variable generate_answer_lm : W → string → string → string → result Prediction * W.

(** Python's [str]. *)
Variable py_str : value → string.

Record state : Type := { lm_state : W; trace : list event }.

Definition record (ev : event) (st : state) : state :=
  {| lm_state := lm_state st; trace := trace st ++ [ev] |}.

(** The calls to the answer-synthesis model recorded so far. *)
Definition answer_calls (st : state) : list event :=
  filter (λ ev, is_CallGenerateAnswer ev = true) (trace st).

(** Code that may raise and that calls the model and prints. *)
Definition M (A : Type) : Type := state → result A * state.

#[local] Instance M_ret : MRet M := λ A a st, (Return a, st).
#[local] Instance M_bind : MBind M := λ A B f m st,
  match m st with
  | (Return a, st') => f a st'
  | (Raise e, st') => (Raise e, st')
  end.

Definition lift {A : Type} (r : result A) : M A := λ st, (r, st).

Definition print (line : string) : M unit := λ st, (Return tt, record (Print line) st).

(** [try: body except RuntimeError as e: handler] *)
Definition try_except_RuntimeError {A : Type} (body : M A) (handler : exn → M A)
  : M A := λ st,
  match body st with
  | (Return a, st') => (Return a, st')
  | (Raise e, st') =>
      if isinstance_RuntimeError e then handler e st' else (Raise e, st')
  end.

(** [self.prune], [self.text2cypher] and [self.generate_answer]. *)
Definition prune (question input_schema : string) : M GraphSchema := λ st,
  let '(r, w) := prune_lm (lm_state st) question input_schema in
  (r, {| lm_state := w; trace := trace st ++ [CallPrune question input_schema] |}).

Definition text2cypher (question : string) (input_schema : GraphSchema) : M Query :=
  λ st,
  let '(r, w) := text2cypher_lm (lm_state st) question input_schema in
  (r, {| lm_state := w; trace := trace st ++ [CallText2Cypher question input_schema] |}).

Definition generate_answer (question cypher_query context : string) : M Prediction :=
  λ st,
  let '(r, w) := generate_answer_lm (lm_state st) question cypher_query context in
  (r, {| lm_state := w;
         trace := trace st ++ [CallGenerateAnswer question cypher_query context] |}).

Definition get_cypher_query (question input_schema : string) : M Query :=
  schema ← prune question input_schema;
  cypher_query ← text2cypher question schema;
  mret cypher_query.

Definition run_query (db_manager : KuzuDatabaseManager)
  (question input_schema : string) : M (string * option (list value)) :=
  result ← get_cypher_query question input_schema;
  let query := query result in
  results ← try_except_RuntimeError
    (result ← lift (conn db_manager query);
     mret (Some (flatten_rows result)))
    (λ e, print ("Error running query: " +:+ exn_msg e);; mret None);
  mret (query, results).

Definition EMPTY_RESULTS : string :=
  "Empty results obtained from the graph database. Please retry with a different question.".

Definition forward (db_manager : KuzuDatabaseManager)
  (question input_schema : string) : M (option Prediction) :=
  '(final_query, final_context) ← run_query db_manager question input_schema;
  match final_context with
  | None => print EMPTY_RESULTS;; mret None
  | Some final_context =>
      response ← generate_answer question final_query (py_str (VList final_context));
      mret (Some response)
  end.

(** The coroutine has no [await] in its body: once started it runs to its
    end without yielding to the event loop. *)
Definition aforward (db_manager : KuzuDatabaseManager)
  (question input_schema : string) : M (option Prediction) :=
  '(final_query, final_context) ← run_query db_manager question input_schema;
  match final_context with
  | None => print EMPTY_RESULTS;; mret None
  | Some final_context =>
      response ← generate_answer question final_query (py_str (VList final_context));
      mret (Some response)
  end.

(** *** asyncio.gather with return_exceptions=True

    The event loop starts the tasks one after the other, in [order]; a
    task that ends stores what it returned, or the exception it raised, in
    the slot of its position. *)
Fixpoint run_scheduled {A : Type} (tasks : list (M A)) (order : list nat)
  (slots : list (option (result A))) (st : state)
  : list (option (result A)) * state :=
  match order with
  | [] => (slots, st)
  | i :: order' =>
      match tasks !! i with
      | Some task =>
          let '(r, st') := task st in
          run_scheduled tasks order' (<[i := Some r]> slots) st'
      | None => run_scheduled tasks order' slots st
      end
  end.

(** The results once every task is done; [None] while one is pending. *)
Fixpoint collect {A : Type} (slots : list (option A)) : option (list A) :=
  match slots with
  | [] => Some []
  | Some r :: slots' =>
      match collect slots' with
      | Some rs => Some (r :: rs)
      | None => None
      end
  | None :: _ => None
  end.

(** [await asyncio.gather(...)] resumes with the list of results when all
    the tasks are done ([Some]); with a task left pending it never does
    ([None]).  With [return_exceptions=True] it does not raise. *)
Definition gather {A : Type} (order : list nat) (tasks : list (M A))
  : M (option (list (result A))) := λ st,
  let '(slots, st') := run_scheduled tasks order (replicate (length tasks) None) st in
  (Return (collect slots), st').

(** The event loop runs the tasks first created, first started. *)
Definition fifo (n : nat) : list nat := seq 0 n.

(** Lines 173 to 177 of [main], the [run_batch] of the specification. *)
Definition run_batch (order : list nat) (db_manager : KuzuDatabaseManager)
  (schema : string) (questions : list string)
  : M (option (list (result (option Prediction)))) :=
  let tasks := (λ question, aforward db_manager question schema) <$> questions in
  gather order tasks.

(** [print(results)] *)
Definition print_results (results : list (result (option Prediction))) : M unit :=
  λ st, (Return tt, record (PrintResults results) st).

(** [main], given the manager that [KuzuDatabaseManager(DB_NAME)] opens. *)
Definition main (db_manager : KuzuDatabaseManager) (questions : list string)
  : M (option unit) :=
  schema ← lift (get_schema_dict py_str db_manager);
  let schema := py_str schema in
  results ← run_batch (fifo (length questions)) db_manager schema questions;
  match results with
  | Some results => print_results results;; mret (Some tt)
  | None => mret None
  end.

End GraphRAG.

Arguments lm_state {W} _.
Arguments trace {W} _.
Arguments record {W} _ _.
Arguments answer_calls {W} _.
Arguments M_ret {W}.
Arguments M_bind {W}.
Arguments lift {W A} _.
Arguments print {W} _.
Arguments try_except_RuntimeError {W A} _ _.
Arguments run_scheduled {W A} _ _ _ _.
Arguments collect {A} _.
Arguments gather {W A} _ _.
Arguments print_results {W} _.

(** ** Reading the emitted schema *)

(** The two endpoint labels that an emitted edge carries. *)
Definition edge_endpoints (e : value) : option (value * value) :=
  match e with
  | VDict items =>
      match dict_get items "from", dict_get items "to" with
      | Some from, Some to => Some (from, to)
      | _, _ => None
      end
  | _ => None
  end.

(** The first and the second endpoint label of a [SHOW_CONNECTION] row. *)
Definition row_endpoints (r : row) : option (value * value) :=
  match r !! 0, r !! 1 with
  | Some a, Some b => Some (a, b)
  | _, _ => None
  end.

(** The [properties] entry of a node or an edge is a list. *)
Definition properties_present (v : value) : bool :=
  match v with
  | VDict items =>
      match dict_get items "properties" with
      | Some (VList _) => true
      | _ => false
      end
  | _ => false
  end.

Section Catalog.

Variable py_str : value → string.

(** The connections the catalog declares, in its order: every relationship
    table of [SHOW_TABLES] with each row of its [SHOW_CONNECTION]. *)
Definition table_connections (db : KuzuDatabaseManager) (tbl_name : value)
  : result (list (value * row)) :=
  rows ← conn db (SHOW_CONNECTION py_str tbl_name);
  mret (map (pair tbl_name) rows).

Definition catalog_connections (db : KuzuDatabaseManager)
  : result (list (value * row)) :=
  response ← conn db SHOW_REL_TABLES;
  rel_tables ← for_each (λ r, list_getitem r 1) response;
  per_table ← for_each (table_connections db) rel_tables;
  mret (concat per_table).

(** Two databases whose catalogs declare the same relationship tables and
    connections (their node tables and columns may differ). *)
Definition same_connections (db db' : KuzuDatabaseManager) : Prop :=
  conn db SHOW_REL_TABLES = conn db' SHOW_REL_TABLES ∧
  ∀ tbl_name, conn db (SHOW_CONNECTION py_str tbl_name)
              = conn db' (SHOW_CONNECTION py_str tbl_name).

End Catalog.

(** ** A small instance

    A catalog in the style of the LDBC social network (two node tables, one
    relationship table), a model backend that counts its calls, and a
    rendering of values for [str]. *)

Fixpoint example_repr (v : value) : string :=
  match v with
  | VNone => "None"
  | VBool true => "True"
  | VBool false => "False"
  | VInt z => NilZero.string_of_int (Z.to_int z)
  | VStr s => "'" +:+ s +:+ "'"
  | VList l => "[" +:+ String.concat ", " (map example_repr l) +:+ "]"
  | VDict d =>
      "{" +:+ String.concat ", "
                (map (λ kv, "'" +:+ kv.1 +:+ "': " +:+ example_repr kv.2) d) +:+ "}"
  end.

Definition example_str (v : value) : string :=
  match v with
  | VStr s => s
  | _ => example_repr v
  end.

Definition PARSER_EXCEPTION : exn :=
  Exn RuntimeError "Parser exception: Invalid input".

Definition ldbc : KuzuDatabaseManager := {|
  conn := λ q,
    if String.eqb q "CALL SHOW_TABLES() WHERE type = 'NODE' RETURN *;" then
      Return [[VInt 0; VStr "Person"; VStr "NODE"];
              [VInt 1; VStr "Comment"; VStr "NODE"]]
    else if String.eqb q "CALL SHOW_TABLES() WHERE type = 'REL' RETURN *;" then
      Return [[VInt 2; VStr "hasCreator"; VStr "REL"]]
    else if String.eqb q "CALL SHOW_CONNECTION('hasCreator') RETURN *;" then
      Return [[VStr "Comment"; VStr "Person"]]
    else if String.eqb q "CALL TABLE_INFO('Person') RETURN *;" then
      Return [[VInt 0; VStr "id"; VStr "INT64"];
              [VInt 1; VStr "firstName"; VStr "STRING"]]
    else if String.eqb q "CALL TABLE_INFO('Comment') RETURN *;" then
      Return [[VInt 0; VStr "id"; VStr "INT64"]]
    else if String.eqb q "CALL TABLE_INFO('hasCreator') RETURN *;" then
      Return []
    else if String.eqb q "MATCH (p:Person) RETURN p.firstName, p.id;" then
      Return [[VStr "Ada"; VInt 1]; [VStr "Grace"; VInt 2]]
    else if String.eqb q "RETURN 42;" then
      Return [[VInt 42]]
    else Raise PARSER_EXCEPTION
|}.

(** The schema that introspection of [ldbc] returns. *)
Definition ldbc_schema : value :=
  VDict [
    ("nodes", VList [
       VDict [("label", VStr "Person");
              ("properties", VList [
                 VDict [("name", VStr "id"); ("type", VStr "INT64")];
                 VDict [("name", VStr "firstName"); ("type", VStr "STRING")]])];
       VDict [("label", VStr "Comment");
              ("properties", VList [
                 VDict [("name", VStr "id"); ("type", VStr "INT64")]])]]);
    ("edges", VList [
       VDict [("label", VStr "hasCreator");
              ("from", VStr "Comment");
              ("to", VStr "Person");
              ("properties", VList [])]])].

(** A database that runs out of memory on every query; the binding turns
    the allocation failure into a [MemoryError]. *)
Definition BAD_ALLOC : exn := Exn MemoryError "std::bad_alloc".

Definition exhausted : KuzuDatabaseManager := {| conn := λ _, Raise BAD_ALLOC |}.

Definition Person : Node := {| Node_label := "Person"; Node_properties := None |}.

(** The model backend: its state is the number of calls it has served.
    Pruning fails to parse for the question [Q3]; [Q1] gets a query that
    runs, [Q2] one that the database rejects. *)
Definition example_prune (w : nat) (question input_schema : string)
  : result GraphSchema * nat :=
  if String.eqb question "Q3"
  then (Raise (ValidationError "pruned_schema: Field required"), S w)
  else (Return {| nodes := [Person]; edges := [] |}, S w).

Definition example_text2cypher (w : nat) (question : string) (input_schema : GraphSchema)
  : result Query * nat :=
  (Return {| query := if String.eqb question "Q1" then "RETURN 42;"
                      else if String.eqb question "Q2" then "MATCH (p:Person RETURN p"
                      else "MATCH (p:Person) RETURN p.firstName, p.id;" |}, S w).

Definition example_generate_answer (w : nat) (question cypher_query context : string)
  : result Prediction * nat :=
  (Return {| response := "From " +:+ context |}, S w).

(** A query generator that answers on two lines. *)
Definition TWO_LINES : string :=
  "MATCH (p:Person)" +:+ String "010"%char "RETURN p.id;".

Definition two_line_text2cypher (w : nat) (question : string) (input_schema : GraphSchema)
  : result Query * nat :=
  (Return {| query := TWO_LINES |}, S w).

Definition start : state nat := {| lm_state := 0; trace := [] |}.

(** An edge as the model may return it in a pruned schema: a comment has a
    person as its creator. *)
Definition has_creator : value :=
  VDict [("label", VStr "hasCreator");
         ("from", VDict [("label", VStr "Comment"); ("properties", VNone)]);
         ("to", VDict [("label", VStr "Person"); ("properties", VNone)]);
         ("properties", VNone)].

(** The pipeline over this backend. *)
Abbreviation example_get_cypher_query :=
  (get_cypher_query nat example_prune example_text2cypher).
Abbreviation example_run_query :=
  (run_query nat example_prune example_text2cypher).
Abbreviation example_forward :=
  (forward nat example_prune example_text2cypher example_generate_answer example_str).
Abbreviation example_aforward :=
  (aforward nat example_prune example_text2cypher example_generate_answer example_str).
Abbreviation example_run_batch :=
  (run_batch nat example_prune example_text2cypher example_generate_answer example_str).

(** ** Further readings of the schema and of the trace *)

(** The property entry that a [TABLE_INFO] row stands for: its second column
    as the name, its third as the type. *)
Definition describes_column (info_row : row) (p : value) : Prop :=
  ∃ name type, info_row !! 1 = Some name ∧ info_row !! 2 = Some type ∧
               p = VDict [("name", name); ("type", type)].

(** The error of an index past the end of a row. *)
Definition INDEX_OUT_OF_RANGE : exn := Exn IndexError "list index out of range".

(** The two ways introspection can fail: the database raised on a query, or
    a row of one of its answers is too short for the column read from it. *)
Definition raised_by_database (db : KuzuDatabaseManager) (e : exn) : Prop :=
  ∃ q, conn db q = Raise e.

Definition short_row (db : KuzuDatabaseManager) (e : exn) : Prop :=
  e = INDEX_OUT_OF_RANGE ∧
  ∃ q rows r, conn db q = Return rows ∧ r ∈ rows ∧ (length r < 3)%nat.

Definition is_CallPrune (ev : event) : bool :=
  match ev with
  | CallPrune _ _ => true
  | _ => false
  end.

(** The prune calls recorded so far. *)
Definition prune_calls {W : Type} (st : state W) : list event :=
  filter (λ ev, is_CallPrune ev = true) (trace st).

(** A backend whose answers do not depend on its state. *)
Definition stateless {W : Type}
  (prune_lm : W → string → string → result GraphSchema * W)
  (text2cypher_lm : W → string → GraphSchema → result Query * W)
  (generate_answer_lm : W → string → string → string → result Prediction * W) : Prop :=
  (∀ w w' question input_schema,
     (prune_lm w question input_schema).1 = (prune_lm w' question input_schema).1) ∧
  (∀ w w' question input_schema,
     (text2cypher_lm w question input_schema).1
       = (text2cypher_lm w' question input_schema).1) ∧
  (∀ w w' question cypher_query context,
     (generate_answer_lm w question cypher_query context).1
       = (generate_answer_lm w' question cypher_query context).1).

(** A database with no table at all: every catalog query has no row. *)
Definition blank : KuzuDatabaseManager := {| conn := λ _, Return [] |}.

(** A database whose [SHOW_TABLES] rows have a single column. *)
Definition narrow : KuzuDatabaseManager :=
  {| conn := λ _, Return [[VStr "Person"]] |}.

(** * Properties *)

(** ** The error monad *)

Lemma result_bind_Return {A B : Type} (m : result A) (f : A → result B) (b : B) :
  m ≫= f = Return b → ∃ a, m = Return a ∧ f a = Return b.
Proof. destruct m as [a|e]; simpl; [eauto | discriminate]. Qed.

Ltac inv_bind H :=
  let a := fresh "a" in
  let Ha := fresh "Ha" in
  apply result_bind_Return in H as (a & Ha & H).

Lemma for_each_Return {A B : Type} (f : A → result B) (l : list A) (ys : list B) :
  for_each f l = Return ys ↔ Forall2 (λ x y, f x = Return y) l ys.
Proof.
  revert ys. induction l as [|x l IH]; intros ys; simpl.
  - split.
    + intros [= <-]. constructor.
    + intros H. by inversion H.
  - split.
    + intros H. inv_bind H. inv_bind H. injection H as <-.
      constructor; [done | by apply IH].
    + intros H. inversion H as [|? y ? ys' Hy Hys]; subst.
      rewrite Hy. simpl. apply IH in Hys. rewrite Hys. done.
Qed.

Lemma for_each_length {A B : Type} (f : A → result B) (l : list A) (ys : list B) :
  for_each f l = Return ys → length ys = length l.
Proof. intros H%for_each_Return. symmetry. by eapply Forall2_length. Qed.

(** ** Schema introspection *)

Section IntrospectionFacts.

Variable py_str : value → string.
Variable db : KuzuDatabaseManager.

Lemma relationship_of_Return tbl_name r rel :
  relationship_of tbl_name r = Return rel →
  ∃ a b, r !! 0 = Some a ∧ r !! 1 = Some b ∧
         rel = VDict [("name", tbl_name); ("from", a); ("to", b)].
Proof.
  unfold relationship_of, list_getitem. intros H.
  destruct (r !! 0) as [a|]; [|discriminate].
  destruct (r !! 1) as [b|]; [|discriminate].
  injection H as <-. eauto.
Qed.

Lemma node_schema_of_Return node n :
  node_schema_of py_str db node = Return n →
  ∃ props, n = VDict [("label", node); ("properties", VList props)].
Proof.
  unfold node_schema_of. intros H. inv_bind H. injection H as <-. eauto.
Qed.

Lemma edge_of_relationship tbl_name a b e :
  edge_of py_str db (VDict [("name", tbl_name); ("from", a); ("to", b)]) = Return e →
  ∃ props, e = VDict [("label", tbl_name); ("from", a); ("to", b);
                      ("properties", VList props)].
Proof.
  unfold edge_of. simpl. intros H. inv_bind H. injection H as <-. eauto.
Qed.

(** What the first loop leaves in [relationships], against the catalog. *)
Lemma relationships_of_connections tbl_name rels :
  relationships_of py_str db tbl_name = Return rels →
  ∃ conns, table_connections py_str db tbl_name = Return conns ∧
    Forall2 (λ rel c, ∃ a b, c.2 !! 0 = Some a ∧ c.2 !! 1 = Some b ∧
               rel = VDict [("name", c.1); ("from", a); ("to", b)]) rels conns.
Proof.
  unfold relationships_of, table_connections. intros H. inv_bind H.
  rewrite Ha. simpl. eexists; split; [done|].
  apply for_each_Return in H. clear Ha.
  induction H as [|r rel rows rels Hr _ IH]; simpl; constructor; [|done].
  apply relationship_of_Return in Hr as (x & y & ? & ? & ->). simpl. eauto.
Qed.

Lemma edges_of_connections rels conns es :
  Forall2 (λ rel c, ∃ a b, c.2 !! 0 = Some a ∧ c.2 !! 1 = Some b ∧
             rel = VDict [("name", c.1); ("from", a); ("to", b)]) rels conns →
  for_each (edge_of py_str db) rels = Return es →
  Forall2 (λ e c, dict_getitem e "label" = Return c.1 ∧
                  edge_endpoints e = row_endpoints c.2 ∧
                  is_Some (edge_endpoints e) ∧
                  properties_present e = true) es conns.
Proof.
  intros Hrels. revert es.
  induction Hrels as [|rel c rels conns (a & b & Ha & Hb & ->) _ IH];
    intros es H; simpl in H.
  - injection H as <-. constructor.
  - inv_bind H. inv_bind H. injection H as <-.
    apply edge_of_relationship in Ha0 as [props ->].
    constructor; [|by apply IH].
    unfold row_endpoints. rewrite Ha, Hb. simpl. eauto.
Qed.

End IntrospectionFacts.

Lemma for_each_ext {A B : Type} (f g : A → result B) (l : list A) :
  (∀ x, f x = g x) → for_each f l = for_each g l.
Proof. intros Hfg. induction l as [|x l IH]; simpl; [done|]. by rewrite Hfg, IH. Qed.

Section SchemaFacts.

Variable py_str : value → string.

Lemma all_relationships_connections db rel_tables relss :
  for_each (relationships_of py_str db) rel_tables = Return relss →
  ∃ per_table, for_each (table_connections py_str db) rel_tables = Return per_table ∧
    Forall2 (λ rel c, ∃ a b, c.2 !! 0 = Some a ∧ c.2 !! 1 = Some b ∧
               rel = VDict [("name", c.1); ("from", a); ("to", b)])
      (concat relss) (concat per_table).
Proof.
  revert relss. induction rel_tables as [|t ts IH]; intros relss H; simpl in H.
  - injection H as <-. exists []. split; [done | constructor].
  - inv_bind H. inv_bind H. injection H as <-.
    apply relationships_of_connections in Ha as (conns & Hc & Hrel).
    apply IH in Ha0 as (per_table & Hp & Hall).
    exists (conns :: per_table). simpl. rewrite Hc, Hp. simpl.
    split; [done | by apply Forall2_app].
Qed.

(** The shape of every schema that introspection returns. *)
Lemma get_schema_dict_Return db schema :
  get_schema_dict py_str db = Return schema →
  ∃ ns es conns,
    schema = VDict [("nodes", VList ns); ("edges", VList es)] ∧
    Forall (λ n, properties_present n = true) ns ∧
    catalog_connections py_str db = Return conns ∧
    Forall2 (λ e c, dict_getitem e "label" = Return c.1 ∧
                    edge_endpoints e = row_endpoints c.2 ∧
                    is_Some (edge_endpoints e) ∧
                    properties_present e = true) es conns.
Proof.
  unfold get_schema_dict, catalog_connections. intros H.
  inv_bind H. inv_bind H. inv_bind H. inv_bind H. inv_bind H.
  inv_bind H. inv_bind H. injection H as <-.
  apply all_relationships_connections in Ha3 as (per_table & Hp & Hrel).
  rewrite Ha1. simpl. rewrite Ha2. simpl. rewrite Hp. simpl.
  do 3 eexists. split; [done|]. split; [|split; [done|]].
  - apply for_each_Return in Ha4. clear -Ha4.
    induction Ha4 as [|node n ? ? Hn _ IH]; constructor; [|done].
    by apply node_schema_of_Return in Hn as [props ->].
  - by eapply edges_of_connections.
Qed.

Lemma catalog_connections_same db db' :
  same_connections py_str db db' →
  catalog_connections py_str db = catalog_connections py_str db'.
Proof.
  intros [Hrel Hconn]. unfold catalog_connections. rewrite Hrel.
  destruct (conn db' SHOW_REL_TABLES) as [response|]; simpl; [|done].
  destruct (for_each _ response) as [rel_tables|]; simpl; [|done].
  erewrite for_each_ext; [done|].
  intros t. unfold table_connections. by rewrite Hconn.
Qed.

Lemma endpoints_determined (es es' : list value) (conns : list (value * row)) :
  Forall2 (λ e c, edge_endpoints e = row_endpoints c.2) es conns →
  Forall2 (λ e c, edge_endpoints e = row_endpoints c.2) es' conns →
  edge_endpoints <$> es = edge_endpoints <$> es'.
Proof.
  intros H. revert es'. induction H as [|e c es conns He _ IH]; intros es' H'.
  - by inversion H'.
  - inversion H' as [|e' ? es'' ? He' Hes']; subst. simpl.
    rewrite He, He'. f_equal. by apply IH.
Qed.

End SchemaFacts.

(** C7: every edge that [get_schema_dict] emits carries, as its [from] and
    [to] entries, the first and the second endpoint label of its catalog
    connection row, edge after edge in the order of the catalog; introspection
    of a database whose catalog declares the same connections gives the same
    from/to pairs. *)
Theorem get_schema_dict_endpoints (py_str : value → string)
  (db : KuzuDatabaseManager) (schema : value) :
  get_schema_dict py_str db = Return schema →
  ∃ ns es conns,
    schema = VDict [("nodes", VList ns); ("edges", VList es)] ∧
    catalog_connections py_str db = Return conns ∧
    Forall2 (λ e c, dict_getitem e "label" = Return c.1 ∧
                    is_Some (edge_endpoints e) ∧
                    edge_endpoints e = row_endpoints c.2) es conns ∧
    ∀ db' schema',
      same_connections py_str db db' →
      get_schema_dict py_str db' = Return schema' →
      ∃ ns' es', schema' = VDict [("nodes", VList ns'); ("edges", VList es')] ∧
                 edge_endpoints <$> es' = edge_endpoints <$> es.
Proof.
  intros H. apply get_schema_dict_Return in H as (ns & es & conns & -> & _ & Hc & Hes).
  exists ns, es, conns. split; [done|]. split; [done|]. split.
  - eapply Forall2_impl; [exact Hes|]. simpl. intros e c (? & ? & ? & _). done.
  - intros db' schema' Hsame H'.
    apply get_schema_dict_Return in H' as (ns' & es' & conns' & -> & _ & Hc' & Hes').
    rewrite (catalog_connections_same _ _ _ Hsame), Hc' in Hc. injection Hc as ->.
    exists ns', es'. split; [done|].
    apply endpoints_determined with conns.
    + eapply Forall2_impl; [exact Hes'|]. simpl. by intros e c (_ & ? & _).
    + eapply Forall2_impl; [exact Hes|]. simpl. by intros e c (_ & ? & _).
Qed.

(** C10: in the schema that [get_schema_dict] returns, the [properties] entry
    of every node and of every edge is a list, possibly empty, never [None]
    and never missing. *)
Theorem get_schema_dict_properties_present (py_str : value → string)
  (db : KuzuDatabaseManager) (schema : value) :
  get_schema_dict py_str db = Return schema →
  ∃ ns es,
    schema = VDict [("nodes", VList ns); ("edges", VList es)] ∧
    Forall (λ n, properties_present n = true) ns ∧
    Forall (λ e, properties_present e = true) es.
Proof.
  intros H. apply get_schema_dict_Return in H as (ns & es & conns & -> & Hns & _ & Hes).
  exists ns, es. split; [done|]. split; [done|].
  clear -Hes. induction Hes as [|e c es conns (_ & _ & _ & He) _ IH]; by constructor.
Qed.

(** ** Flattening the rows *)

Lemma foldl_snoc_app {A : Type} (acc l : list A) :
  foldl (λ acc item, acc ++ [item]) acc l = acc ++ l.
Proof.
  revert acc. induction l as [|x l IH]; intros acc; simpl.
  - by rewrite app_nil_r.
  - rewrite IH. by rewrite <- app_assoc.
Qed.

Lemma flatten_rows_concat (rows : list row) : flatten_rows rows = concat rows.
Proof.
  unfold flatten_rows.
  enough (∀ acc, foldl (λ acc r, foldl (λ acc item, acc ++ [item]) acc r) acc rows
                 = acc ++ concat rows) as H by apply (H []).
  induction rows as [|r rows IH]; intros acc; simpl.
  - by rewrite app_nil_r.
  - rewrite IH, foldl_snoc_app. by rewrite <- app_assoc.
Qed.

(** ** The pipeline *)

Section GraphRAGFacts.

Variable W : Type.
Variable prune_lm : W → string → string → result GraphSchema * W.
Variable text2cypher_lm : W → string → GraphSchema → result Query * W.
Variable generate_answer_lm : W → string → string → string → result Prediction * W.
Variable py_str : value → string.

Abbreviation state := (state W).
Abbreviation get_cypher_query := (get_cypher_query W prune_lm text2cypher_lm).
Abbreviation run_query := (run_query W prune_lm text2cypher_lm).
Abbreviation forward := (forward W prune_lm text2cypher_lm generate_answer_lm py_str).
Abbreviation aforward := (aforward W prune_lm text2cypher_lm generate_answer_lm py_str).

Lemma get_cypher_query_inv question input_schema (st st' : state) r :
  get_cypher_query question input_schema st = (r, st') →
  answer_calls st' = answer_calls st ∧
  ((∃ e w1, r = Raise e ∧ prune_lm (lm_state st) question input_schema = (Raise e, w1) ∧
            lm_state st' = w1) ∨
   (∃ schema w1,
      prune_lm (lm_state st) question input_schema = (Return schema, w1) ∧
      text2cypher_lm w1 question schema = (r, lm_state st'))).
Proof.
  unfold get_cypher_query, mbind, M_bind, prune, text2cypher, answer_calls. simpl.
  destruct (prune_lm _ _ _) as [[schema|e] w1] eqn:Hp; simpl.
  - destruct (text2cypher_lm _ _ _) as [[qobj|e] w2] eqn:Ht; simpl;
      intros [= <- <-]; simpl;
      (split; [by rewrite !filter_app, !app_nil_r | right; eauto]).
  - intros [= <- <-]. simpl. split; [by rewrite !filter_app, !app_nil_r | left; eauto].
Qed.

(** [run_query] after the query generator has returned, by what the
    database does with the query. *)
Lemma run_query_after_generation db question input_schema (st st1 : state) qobj :
  get_cypher_query question input_schema st = (Return qobj, st1) →
  run_query db question input_schema st =
    match conn db (query qobj) with
    | Return rows => (Return (query qobj, Some (flatten_rows rows)), st1)
    | Raise e =>
        if isinstance_RuntimeError e
        then (Return (query qobj, None),
              record (Print ("Error running query: " +:+ exn_msg e)) st1)
        else (Raise e, st1)
    end.
Proof.
  intros Hq. unfold run_query. unfold mbind at 1. unfold M_bind at 1. rewrite Hq.
  unfold mbind, M_bind, try_except_RuntimeError, lift, print, mret, M_ret.
  destruct (conn db (query qobj)) as [rows|e]; [done|].
  by destruct (isinstance_RuntimeError e).
Qed.

Lemma run_query_generation_raises db question input_schema (st st1 : state) e :
  get_cypher_query question input_schema st = (Raise e, st1) →
  run_query db question input_schema st = (Raise e, st1).
Proof.
  intros Hq. unfold run_query. unfold mbind at 1. unfold M_bind at 1. by rewrite Hq.
Qed.

(** [run_query] never calls the answer-synthesis model. *)
Lemma run_query_answer_calls db question input_schema (st st1 : state) r :
  run_query db question input_schema st = (r, st1) →
  answer_calls st1 = answer_calls st.
Proof.
  destruct (get_cypher_query question input_schema st) as [[qobj|e] st0] eqn:Hq.
  - rewrite (run_query_after_generation _ _ _ _ _ _ Hq).
    apply get_cypher_query_inv in Hq as [Hcalls _].
    destruct (conn db (query qobj)) as [rows|e]; [by intros [= <- <-]|].
    destruct (isinstance_RuntimeError e); intros [= <- <-]; [|done].
    unfold answer_calls, record. simpl. rewrite filter_app. simpl.
    rewrite app_nil_r. exact Hcalls.
  - rewrite (run_query_generation_raises _ _ _ _ _ _ Hq). intros [= <- <-].
    by apply get_cypher_query_inv in Hq as [Hcalls _].
Qed.

Abbreviation generate_answer := (generate_answer W generate_answer_lm).

(** [forward], by what [run_query] gave. *)
Lemma forward_after_run_query db question input_schema (st : state) :
  forward db question input_schema st =
    match run_query db question input_schema st with
    | (Return (final_query, None), st1) =>
        (Return None, record (Print EMPTY_RESULTS) st1)
    | (Return (final_query, Some final_context), st1) =>
        match generate_answer question final_query (py_str (VList final_context)) st1 with
        | (Return response, st2) => (Return (Some response), st2)
        | (Raise e, st2) => (Raise e, st2)
        end
    | (Raise e, st1) => (Raise e, st1)
    end.
Proof.
  unfold forward. unfold mbind at 1. unfold M_bind at 1.
  destruct (run_query db question input_schema st) as [[[qt [c|]]|e] st1]; done.
Qed.

Lemma aforward_after_run_query db question input_schema (st : state) :
  aforward db question input_schema st =
    match run_query db question input_schema st with
    | (Return (final_query, None), st1) =>
        (Return None, record (Print EMPTY_RESULTS) st1)
    | (Return (final_query, Some final_context), st1) =>
        match generate_answer question final_query (py_str (VList final_context)) st1 with
        | (Return response, st2) => (Return (Some response), st2)
        | (Raise e, st2) => (Raise e, st2)
        end
    | (Raise e, st1) => (Raise e, st1)
    end.
Proof.
  unfold aforward. unfold mbind at 1. unfold M_bind at 1.
  destruct (run_query db question input_schema st) as [[[qt [c|]]|e] st1]; done.
Qed.

(** C9: [forward] and [aforward] give the same result, and leave the same
    state behind, on every database, question, schema and starting state. *)
Theorem forward_aforward_same db question input_schema (st : state) :
  forward db question input_schema st = aforward db question input_schema st.
Proof.
  by rewrite forward_after_run_query, aforward_after_run_query.
Qed.

(** C2, as amended: when the database raises a [RuntimeError] (the class
    the [except] clause names, or a subclass of it) on the generated query,
    [run_query] prints the error and returns the query text with an absent
    result, and [forward] goes on to return [None] for want of a context. *)
Theorem run_query_catches_RuntimeError db question input_schema
  (st st1 : state) qobj e :
  get_cypher_query question input_schema st = (Return qobj, st1) →
  conn db (query qobj) = Raise e →
  isinstance_RuntimeError e = true →
  run_query db question input_schema st =
    (Return (query qobj, None),
     record (Print ("Error running query: " +:+ exn_msg e)) st1) ∧
  forward db question input_schema st =
    (Return None,
     record (Print EMPTY_RESULTS)
       (record (Print ("Error running query: " +:+ exn_msg e)) st1)).
Proof.
  intros Hq He Hcls.
  assert (run_query db question input_schema st =
    (Return (query qobj, None),
     record (Print ("Error running query: " +:+ exn_msg e)) st1)) as Hrun.
  { rewrite (run_query_after_generation _ _ _ _ _ _ Hq), He. by rewrite Hcls. }
  split; [done|]. by rewrite forward_after_run_query, Hrun.
Qed.

(** An exception of another class goes through [run_query]. *)
Lemma run_query_propagates_other db question input_schema (st st1 : state) qobj e :
  get_cypher_query question input_schema st = (Return qobj, st1) →
  conn db (query qobj) = Raise e →
  isinstance_RuntimeError e = false →
  run_query db question input_schema st = (Raise e, st1).
Proof.
  intros Hq He Hcls.
  rewrite (run_query_after_generation _ _ _ _ _ _ Hq), He. by rewrite Hcls.
Qed.

(** C8: when the database returns rows for the generated query, the result
    of [run_query] is the concatenation of the rows, in row order, each
    row giving its column values in column order. *)
Theorem run_query_flattens_rows db question input_schema (st st1 : state) qobj rows :
  get_cypher_query question input_schema st = (Return qobj, st1) →
  conn db (query qobj) = Return rows →
  run_query db question input_schema st = (Return (query qobj, Some (concat rows)), st1).
Proof.
  intros Hq Hrows.
  rewrite (run_query_after_generation _ _ _ _ _ _ Hq), Hrows.
  by rewrite flatten_rows_concat.
Qed.

(** C3: when [run_query] returns an absent context, [forward] and
    [aforward] print the retry message and return [None], and no call to
    the answer-synthesis model has been made; whenever a run of [forward]
    or [aforward] does make such a call, [run_query] had returned a
    context. *)
Theorem forward_skips_answer_without_context db question input_schema
  (st st1 : state) r :
  run_query db question input_schema st = (r, st1) →
  (∀ final_query, r = Return (final_query, None) →
     forward db question input_schema st
       = (Return None, record (Print EMPTY_RESULTS) st1) ∧
     aforward db question input_schema st
       = (Return None, record (Print EMPTY_RESULTS) st1) ∧
     lm_state (record (Print EMPTY_RESULTS) st1) = lm_state st1 ∧
     answer_calls (record (Print EMPTY_RESULTS) st1) = answer_calls st) ∧
  (∀ out st2,
     forward db question input_schema st = (out, st2) ∨
     aforward db question input_schema st = (out, st2) →
     answer_calls st2 ≠ answer_calls st →
     ∃ final_query final_context, r = Return (final_query, Some final_context)).
Proof.
  intros Hrun. pose proof (run_query_answer_calls _ _ _ _ _ _ Hrun) as Hcalls.
  split.
  - intros final_query ->.
    rewrite forward_after_run_query, aforward_after_run_query, Hrun.
    repeat split; [].
    unfold answer_calls, record. simpl. rewrite filter_app. simpl.
    rewrite app_nil_r. exact Hcalls.
  - intros out st2 Hfw Hne.
    rewrite forward_after_run_query, aforward_after_run_query, Hrun in Hfw.
    destruct Hfw as [Hfw|Hfw];
      (destruct r as [[qt [c|]]|e]; [by eauto | |];
       injection Hfw as <- <-; exfalso; apply Hne; [|done];
       unfold answer_calls, record; simpl; rewrite filter_app; simpl;
       rewrite app_nil_r; exact Hcalls).
Qed.

(** C4, as amended: the query that [get_cypher_query] returns is the one
    the query-generation model call returned for the question and the
    pruned schema, passed on as it is; no step of [get_cypher_query] looks
    at its text. *)
Theorem get_cypher_query_returns_model_query question input_schema
  (st st' : state) qobj :
  get_cypher_query question input_schema st = (Return qobj, st') →
  ∃ schema w1,
    prune_lm (lm_state st) question input_schema = (Return schema, w1) ∧
    text2cypher_lm w1 question schema = (Return qobj, lm_state st') ∧
    trace st' = trace st ++ [CallPrune question input_schema;
                             CallText2Cypher question schema].
Proof.
  unfold get_cypher_query, mbind, M_bind, prune, text2cypher. simpl.
  destruct (prune_lm _ _ _) as [[schema|e] w1] eqn:Hp; simpl; [|discriminate].
  destruct (text2cypher_lm _ _ _) as [[q|e] w2] eqn:Ht; simpl; [|discriminate].
  intros [= <- <-]. simpl. exists schema, w1. rewrite <- app_assoc. done.
Qed.

End GraphRAGFacts.

(** ** The batch *)

Section GatherFacts.

Context {W A : Type}.
Implicit Types (tasks : list (M W A)) (order : list nat)
  (slots : list (option (result A))) (st : state W).

Lemma run_scheduled_app tasks pre post slots st :
  run_scheduled tasks (pre ++ post) slots st =
    run_scheduled tasks post (run_scheduled tasks pre slots st).1
                             (run_scheduled tasks pre slots st).2.
Proof.
  revert slots st. induction pre as [|i pre IH]; intros slots st; simpl; [done|].
  destruct (tasks !! i) as [task|]; [|apply IH].
  destruct (task st) as [r st']. apply IH.
Qed.

Lemma run_scheduled_length tasks order slots st :
  length (run_scheduled tasks order slots st).1 = length slots.
Proof.
  revert slots st. induction order as [|i order IH]; intros slots st; simpl; [done|].
  destruct (tasks !! i) as [task|]; [|apply IH].
  destruct (task st) as [r st']. rewrite IH. apply length_insert.
Qed.

(** The slots do not steer the run. *)
Lemma run_scheduled_state tasks order slots slots' st :
  (run_scheduled tasks order slots st).2 = (run_scheduled tasks order slots' st).2.
Proof.
  revert slots slots' st. induction order as [|i order IH]; intros slots slots' st;
    simpl; [done|].
  destruct (tasks !! i) as [task|]; [|apply IH].
  destruct (task st) as [r st']. apply IH.
Qed.

(** A slot is written by its own task only. *)
Lemma run_scheduled_other tasks order slots st i :
  i ∉ order → (run_scheduled tasks order slots st).1 !! i = slots !! i.
Proof.
  revert slots st. induction order as [|j order IH]; intros slots st Hi; simpl; [done|].
  apply not_elem_of_cons in Hi as [Hij Hi].
  destruct (tasks !! j) as [task|]; [|by apply IH].
  destruct (task st) as [r st']. rewrite IH by done.
  by apply list_lookup_insert_ne.
Qed.

(** The slot of a task started once holds the outcome of that task, run
    from the state the tasks started before it have left. *)
Lemma run_scheduled_slot tasks pre post slots st i task :
  tasks !! i = Some task → i < length slots → i ∉ post →
  (run_scheduled tasks (pre ++ i :: post) slots st).1 !! i
    = Some (Some (task (run_scheduled tasks pre slots st).2).1).
Proof.
  intros Ht Hlen Hpost. rewrite run_scheduled_app. simpl. rewrite Ht.
  destruct (task _) as [r st'] eqn:Hr. rewrite run_scheduled_other by done.
  simpl. apply list_lookup_insert_eq. by rewrite run_scheduled_length.
Qed.

Lemma collect_Some (slots : list (option (result A))) :
  (∀ i, i < length slots → ∃ r, slots !! i = Some (Some r)) →
  ∃ rs, collect slots = Some rs ∧ slots = Some <$> rs.
Proof.
  induction slots as [|s slots IH]; intros H; simpl.
  - by exists [].
  - destruct (H 0) as [r Hr]; [simpl; lia|]. injection Hr as ->.
    destruct IH as (rs & -> & ->).
    { intros i Hi. apply (H (S i)). simpl. lia. }
    by exists (r :: rs).
Qed.

(** [gather] on a schedule that starts every task once. *)
Lemma gather_scheduled tasks order st :
  order ≡ₚ seq 0 (length tasks) →
  ∃ results,
    (gather order tasks st).1 = Return (Some results) ∧
    length results = length tasks ∧
    ∀ i task pre post,
      tasks !! i = Some task → order = pre ++ i :: post →
      results !! i = Some (task (gather pre tasks st).2).1.
Proof.
  intros Hperm.
  assert (NoDup order) as Hnodup by (rewrite Hperm; apply NoDup_seq).
  unfold gather.
  destruct (run_scheduled tasks order (replicate (length tasks) None) st)
    as [slots st'] eqn:Hrun.
  assert (slots = (run_scheduled tasks order (replicate (length tasks) None) st).1)
    as Hslots by by rewrite Hrun.
  assert (length slots = length tasks) as Hlen.
  { by rewrite Hslots, run_scheduled_length, length_replicate. }
  assert (∀ i task pre post, tasks !! i = Some task → order = pre ++ i :: post →
            slots !! i = Some (Some (task (run_scheduled tasks pre
                           (replicate (length tasks) None) st).2).1)) as Hslot.
  { intros i task pre post Ht ->. rewrite Hslots.
    apply run_scheduled_slot; [done | |].
    - rewrite length_replicate. by eapply lookup_lt_Some.
    - apply NoDup_app in Hnodup as (_ & _ & Hn). by apply NoDup_cons in Hn as [? _]. }
  destruct (collect_Some slots) as (results & Hcollect & Heq).
  { intros i Hi. rewrite Hlen in Hi.
    destruct (lookup_lt_is_Some_2 tasks i Hi) as [task Ht].
    assert (i ∈ order) as Hin.
    { rewrite Hperm. apply elem_of_seq. lia. }
    apply list_elem_of_split in Hin as (pre & post & Ho).
    eexists. by eapply Hslot. }
  exists results. simpl. rewrite Hcollect. split; [done|]. split.
  { by rewrite <- Hlen, Heq, length_fmap. }
  intros i task pre post Ht Ho.
  specialize (Hslot i task pre post Ht Ho).
  rewrite Heq, list_lookup_fmap in Hslot.
  destruct (results !! i) as [r|]; [|discriminate].
  injection Hslot as ->.
  by destruct (run_scheduled tasks pre (replicate (length tasks) None) st).
Qed.

End GatherFacts.

Section BatchFacts.

Variable W : Type.
Variable prune_lm : W → string → string → result GraphSchema * W.
Variable text2cypher_lm : W → string → GraphSchema → result Query * W.
Variable generate_answer_lm : W → string → string → string → result Prediction * W.
Variable py_str : value → string.

Abbreviation aforward' := (aforward W prune_lm text2cypher_lm generate_answer_lm py_str).
Abbreviation run_batch' := (run_batch W prune_lm text2cypher_lm generate_answer_lm py_str).

(** C6: on every schedule that starts each task once, [run_batch] returns
    as many results as there are questions, and the result at index [i] is
    the outcome of [aforward] on the question at index [i] (run from the
    state that the tasks started before it have left), wherever in the
    schedule that task comes. *)
Theorem run_batch_positional order db schema (questions : list string) (st : state W) :
  order ≡ₚ seq 0 (length questions) →
  ∃ results,
    (run_batch' order db schema questions st).1 = Return (Some results) ∧
    length results = length questions ∧
    ∀ i question pre post,
      questions !! i = Some question → order = pre ++ i :: post →
      results !! i
        = Some (aforward' db question schema
                  (run_batch' pre db schema questions st).2).1.
Proof.
  intros Hperm. unfold run_batch.
  destruct (gather_scheduled ((λ question, aforward' db question schema) <$> questions)
              order st) as (results & Hres & Hlen & Hpos).
  { by rewrite length_fmap. }
  exists results. split; [done|]. split; [by rewrite Hlen, length_fmap|].
  intros i question pre post Hq Ho.
  apply (Hpos i _ pre post); [|done].
  by rewrite list_lookup_fmap, Hq.
Qed.

(** C5: when the pipeline of the question at index [i] raises [e], on any
    schedule that starts each task once [run_batch] still returns a result
    for every question: index [i] holds the exception [e], and every other
    index holds the outcome of its own question's pipeline, those started
    after the failing one included. *)
Theorem run_batch_isolates_failure order db schema (questions : list string)
  (st : state W) i question pre post e :
  order ≡ₚ seq 0 (length questions) →
  questions !! i = Some question →
  order = pre ++ i :: post →
  (aforward' db question schema (run_batch' pre db schema questions st).2).1 = Raise e →
  ∃ results,
    (run_batch' order db schema questions st).1 = Return (Some results) ∧
    length results = length questions ∧
    results !! i = Some (Raise e) ∧
    ∀ j question' pre' post',
      j ≠ i → questions !! j = Some question' → order = pre' ++ j :: post' →
      results !! j
        = Some (aforward' db question' schema
                  (run_batch' pre' db schema questions st).2).1.
Proof.
  intros Hperm Hq Ho Hraise. unfold run_batch in *.
  destruct (gather_scheduled ((λ question, aforward' db question schema) <$> questions)
              order st) as (results & Hres & Hlen & Hpos).
  { by rewrite length_fmap. }
  exists results. split; [done|]. split; [by rewrite Hlen, length_fmap|]. split.
  - rewrite <- Hraise. apply (Hpos i _ pre post); [|done].
    by rewrite list_lookup_fmap, Hq.
  - intros j question' pre' post' _ Hq' Ho'.
    apply (Hpos j _ pre' post'); [|done].
    by rewrite list_lookup_fmap, Hq'.
Qed.

End BatchFacts.

(** ** The Edge model *)

(** Both fields of a validated edge come from the key [from]. *)
Lemma Edge_validate_to_from (v : value) (e : Edge) :
  Edge_validate v = Return e → Edge_to e = Edge_from_ e.
Proof.
  destruct v as [| | | | |items]; try discriminate. simpl. intros H.
  inv_bind H. inv_bind H. inv_bind H. inv_bind H. injection H as <-. simpl.
  unfold Edge_from__alias, Edge_to_alias in *. congruence.
Qed.

(** C1: validation of an edge whose [from] is [Comment] and whose [to] is
    [Person] gives an [Edge] with [Comment] in both fields: [to] is read
    from the key [from], and the label under [to] is lost. *)
Theorem Edge_validate_has_creator :
  edge_endpoints has_creator
    = Some (VDict [("label", VStr "Comment"); ("properties", VNone)],
            VDict [("label", VStr "Person"); ("properties", VNone)]) ∧
  ∃ e, Edge_validate has_creator = Return e ∧
       Node_label (Edge_from_ e) = "Comment" ∧
       Node_label (Edge_to e) = "Comment".
Proof. split; [reflexivity|]. eexists. repeat split. Qed.

(** An edge as introspection emits it, with bare labels as endpoints, is not
    accepted at all: the two fields are of type [Node]. *)
Example Edge_validate_introspected :
  Edge_validate (VDict [("label", VStr "hasCreator"); ("from", VStr "Comment");
                        ("to", VStr "Person"); ("properties", VList [])])
    = Raise (ValidationError "Input should be a valid dictionary").
Proof. reflexivity. Qed.

(** ** The properties on the instance *)

Example get_schema_dict_ldbc : get_schema_dict example_str ldbc = Return ldbc_schema.
Proof. reflexivity. Qed.

Lemma get_schema_dict_endpoints_witness :
  get_schema_dict example_str ldbc = Return ldbc_schema ∧
  ∃ ns es conns,
    ldbc_schema = VDict [("nodes", VList ns); ("edges", VList es)] ∧
    catalog_connections example_str ldbc = Return conns ∧
    Forall2 (λ e c, dict_getitem e "label" = Return c.1 ∧
                    is_Some (edge_endpoints e) ∧
                    edge_endpoints e = row_endpoints c.2) es conns ∧
    ∀ db' schema',
      same_connections example_str ldbc db' →
      get_schema_dict example_str db' = Return schema' →
      ∃ ns' es', schema' = VDict [("nodes", VList ns'); ("edges", VList es')] ∧
                 edge_endpoints <$> es' = edge_endpoints <$> es.
Proof.
  split; [reflexivity|].
  apply (get_schema_dict_endpoints example_str ldbc ldbc_schema). reflexivity.
Defined.

Lemma get_schema_dict_properties_present_witness :
  get_schema_dict example_str ldbc = Return ldbc_schema ∧
  ∃ ns es,
    ldbc_schema = VDict [("nodes", VList ns); ("edges", VList es)] ∧
    Forall (λ n, properties_present n = true) ns ∧
    Forall (λ e, properties_present e = true) es.
Proof.
  split; [reflexivity|].
  apply (get_schema_dict_properties_present example_str ldbc ldbc_schema). reflexivity.
Defined.

Lemma run_query_catches_RuntimeError_witness :
  example_get_cypher_query "Q2" "schema" start
    = (Return {| query := "MATCH (p:Person RETURN p" |},
       {| lm_state := 2;
          trace := [CallPrune "Q2" "schema";
                    CallText2Cypher "Q2" {| nodes := [Person]; edges := [] |}] |}) ∧
  conn ldbc "MATCH (p:Person RETURN p" = Raise PARSER_EXCEPTION ∧
  isinstance_RuntimeError PARSER_EXCEPTION = true ∧
  (example_run_query ldbc "Q2" "schema" start).1
    = Return ("MATCH (p:Person RETURN p", None) ∧
  (example_forward ldbc "Q2" "schema" start).1 = Return None.
Proof.
  split; [reflexivity|]. split; [reflexivity|]. split; [reflexivity|].
  destruct (run_query_catches_RuntimeError nat example_prune example_text2cypher
              example_generate_answer example_str ldbc "Q2" "schema" start
              {| lm_state := 2;
                 trace := [CallPrune "Q2" "schema";
                           CallText2Cypher "Q2" {| nodes := [Person]; edges := [] |}] |}
              {| query := "MATCH (p:Person RETURN p" |} PARSER_EXCEPTION)
    as [Hrun Hfw]; [reflexivity | reflexivity | reflexivity |].
  rewrite Hrun, Hfw. split; reflexivity.
Defined.

(** The claim C2 as it stands fails on a database that raises an exception
    which is no [RuntimeError]: [run_query] raises it in its turn. *)
Lemma run_query_raises_MemoryError :
  (example_get_cypher_query "Q1" "schema" start).1 = Return {| query := "RETURN 42;" |} ∧
  conn exhausted "RETURN 42;" = Raise BAD_ALLOC ∧
  (example_run_query exhausted "Q1" "schema" start).1 = Raise BAD_ALLOC ∧
  (example_forward exhausted "Q1" "schema" start).1 = Raise BAD_ALLOC.
Proof. repeat split. Qed.

Lemma run_query_flattens_rows_witness :
  example_get_cypher_query "Q4" "schema" start
    = (Return {| query := "MATCH (p:Person) RETURN p.firstName, p.id;" |},
       {| lm_state := 2;
          trace := [CallPrune "Q4" "schema";
                    CallText2Cypher "Q4" {| nodes := [Person]; edges := [] |}] |}) ∧
  conn ldbc "MATCH (p:Person) RETURN p.firstName, p.id;"
    = Return [[VStr "Ada"; VInt 1]; [VStr "Grace"; VInt 2]] ∧
  (example_run_query ldbc "Q4" "schema" start).1
    = Return ("MATCH (p:Person) RETURN p.firstName, p.id;",
              Some [VStr "Ada"; VInt 1; VStr "Grace"; VInt 2]).
Proof.
  split; [reflexivity|]. split; [reflexivity|].
  rewrite (run_query_flattens_rows nat example_prune example_text2cypher
             ldbc "Q4" "schema" start
             {| lm_state := 2;
                trace := [CallPrune "Q4" "schema";
                          CallText2Cypher "Q4" {| nodes := [Person]; edges := [] |}] |}
             {| query := "MATCH (p:Person) RETURN p.firstName, p.id;" |}
             [[VStr "Ada"; VInt 1]; [VStr "Grace"; VInt 2]]);
    reflexivity.
Defined.

Lemma forward_skips_answer_without_context_witness :
  example_forward ldbc "Q2" "schema" start
    = (Return None,
       record (Print EMPTY_RESULTS) (example_run_query ldbc "Q2" "schema" start).2) ∧
  example_aforward ldbc "Q2" "schema" start
    = (Return None,
       record (Print EMPTY_RESULTS) (example_run_query ldbc "Q2" "schema" start).2) ∧
  answer_calls (example_forward ldbc "Q2" "schema" start).2 = [].
Proof.
  destruct (forward_skips_answer_without_context nat example_prune example_text2cypher
              example_generate_answer example_str ldbc "Q2" "schema" start
              (example_run_query ldbc "Q2" "schema" start).2
              (Return ("MATCH (p:Person RETURN p", None)))
    as [Habsent _]; [reflexivity|].
  destruct (Habsent "MATCH (p:Person RETURN p") as (Hfw & Hafw & _ & Hcalls);
    [reflexivity|].
  split; [exact Hfw|]. split; [exact Hafw|]. rewrite Hfw. exact Hcalls.
Defined.

Lemma get_cypher_query_returns_model_query_witness :
  example_get_cypher_query "Q1" "schema" start
    = (Return {| query := "RETURN 42;" |},
       {| lm_state := 2;
          trace := [CallPrune "Q1" "schema";
                    CallText2Cypher "Q1" {| nodes := [Person]; edges := [] |}] |}) ∧
  ∃ schema w1,
    example_prune 0 "Q1" "schema" = (Return schema, w1) ∧
    example_text2cypher w1 "Q1" schema = (Return {| query := "RETURN 42;" |}, 2) ∧
    [CallPrune "Q1" "schema"; CallText2Cypher "Q1" {| nodes := [Person]; edges := [] |}]
      = [] ++ [CallPrune "Q1" "schema"; CallText2Cypher "Q1" schema].
Proof.
  split; [reflexivity|].
  apply (get_cypher_query_returns_model_query nat example_prune example_text2cypher
           "Q1" "schema" start
           {| lm_state := 2;
              trace := [CallPrune "Q1" "schema";
                        CallText2Cypher "Q1" {| nodes := [Person]; edges := [] |}] |}
           {| query := "RETURN 42;" |}).
  reflexivity.
Defined.

(** The claim C4 as it stands fails on a model that answers on two lines:
    [get_cypher_query] returns the text with its line break. *)
Lemma get_cypher_query_line_break :
  ∃ qobj,
    (get_cypher_query nat example_prune two_line_text2cypher "Q1" "schema" start).1
      = Return qobj ∧
    has_line_break (query qobj) = true.
Proof. exists {| query := TWO_LINES |}. split; reflexivity. Qed.

Lemma run_batch_positional_witness :
  [1; 0] ≡ₚ seq 0 (length ["Q1"; "Q2"]) ∧
  ∃ results,
    (example_run_batch [1; 0] ldbc "schema" ["Q1"; "Q2"] start).1 = Return (Some results) ∧
    length results = 2 ∧
    results !! 0 = Some (example_aforward ldbc "Q1" "schema"
                           (example_run_batch [1] ldbc "schema" ["Q1"; "Q2"] start).2).1 ∧
    results !! 1 = Some (example_aforward ldbc "Q2" "schema"
                           (example_run_batch [] ldbc "schema" ["Q1"; "Q2"] start).2).1.
Proof.
  assert ([1; 0] ≡ₚ seq 0 (length ["Q1"; "Q2"])) as Hperm by (simpl; solve_Permutation).
  split; [exact Hperm|].
  destruct (run_batch_positional nat example_prune example_text2cypher
              example_generate_answer example_str [1; 0] ldbc "schema" ["Q1"; "Q2"]
              start Hperm) as (results & Hres & Hlen & Hpos).
  exists results. split; [exact Hres|]. split; [exact Hlen|]. split.
  - apply (Hpos 0 "Q1" [1] []); reflexivity.
  - apply (Hpos 1 "Q2" [] [0]); reflexivity.
Defined.

Lemma run_batch_isolates_failure_witness :
  [2; 0; 1] ≡ₚ seq 0 (length ["Q1"; "Q3"; "Q2"]) ∧
  (example_aforward ldbc "Q3" "schema"
     (example_run_batch [2; 0] ldbc "schema" ["Q1"; "Q3"; "Q2"] start).2).1
    = Raise (ValidationError "pruned_schema: Field required") ∧
  ∃ results,
    (example_run_batch [2; 0; 1] ldbc "schema" ["Q1"; "Q3"; "Q2"] start).1
      = Return (Some results) ∧
    length results = 3 ∧
    results !! 1 = Some (Raise (ValidationError "pruned_schema: Field required")) ∧
    results !! 0 = Some (example_aforward ldbc "Q1" "schema"
                           (example_run_batch [2] ldbc "schema" ["Q1"; "Q3"; "Q2"] start).2).1 ∧
    results !! 2 = Some (example_aforward ldbc "Q2" "schema"
                           (example_run_batch [] ldbc "schema" ["Q1"; "Q3"; "Q2"] start).2).1.
Proof.
  assert ([2; 0; 1] ≡ₚ seq 0 (length ["Q1"; "Q3"; "Q2"])) as Hperm
    by (simpl; solve_Permutation).
  split; [exact Hperm|]. split; [reflexivity|].
  destruct (run_batch_isolates_failure nat example_prune example_text2cypher
              example_generate_answer example_str [2; 0; 1] ldbc "schema"
              ["Q1"; "Q3"; "Q2"] start 1 "Q3" [2; 0] []
              (ValidationError "pruned_schema: Field required") Hperm)
    as (results & Hres & Hlen & Hexc & Hsib); [reflexivity | reflexivity | reflexivity |].
  exists results. split; [exact Hres|]. split; [exact Hlen|]. split; [exact Hexc|]. split.
  - apply (Hsib 0 "Q1" [2] [1]); [lia | reflexivity | reflexivity].
  - apply (Hsib 2 "Q2" [] [0; 1]); [lia | reflexivity | reflexivity].
Defined.

(** The batch of the specification: [Q1] runs and gives [[42]], the query of
    [Q2] is rejected; the two results come in the order of the questions. *)
Example run_batch_two_questions :
  (example_run_batch (fifo 2) ldbc "schema" ["Q1"; "Q2"] start).1
    = Return (Some [Return (Some {| response := "From [42]" |}); Return None]).
Proof. reflexivity. Qed.

(** * Further properties *)

(** ** Introspection: what the schema holds *)

Section SchemaContents.

Variable py_str : value → string.
Variable db : KuzuDatabaseManager.

Lemma property_of_Return info_row p :
  property_of info_row = Return p ↔ describes_column info_row p.
Proof.
  unfold property_of, list_getitem, describes_column. split.
  - intros H. destruct (info_row !! 1) as [a|]; [|discriminate].
    destruct (info_row !! 2) as [b|]; [|discriminate].
    injection H as <-. eauto.
  - intros (a & b & -> & -> & ->). done.
Qed.

Lemma properties_of_Return tbl_name props :
  properties_of py_str db tbl_name = Return props ↔
  ∃ info, conn db (TABLE_INFO py_str tbl_name) = Return info ∧
          Forall2 describes_column info props.
Proof.
  unfold properties_of. split.
  - intros H. inv_bind H. exists a. split; [done|].
    apply for_each_Return in H. eapply Forall2_impl; [exact H|].
    intros r p. apply property_of_Return.
  - intros (info & -> & H). simpl. apply for_each_Return.
    eapply Forall2_impl; [exact H|]. intros r p. apply property_of_Return.
Qed.

Lemma node_schemas_Return node_rows nodes ns :
  for_each (λ r, list_getitem r 1) node_rows = Return nodes →
  for_each (node_schema_of py_str db) nodes = Return ns →
  Forall2 (λ r n, ∃ label info props,
             r !! 1 = Some label ∧
             conn db (TABLE_INFO py_str label) = Return info ∧
             Forall2 describes_column info props ∧
             n = VDict [("label", label); ("properties", VList props)]) node_rows ns.
Proof.
  intros Hrows%for_each_Return Hns%for_each_Return. revert ns Hns.
  induction Hrows as [|r label node_rows nodes Hr _ IH]; intros ns Hns.
  - inversion Hns. constructor.
  - inversion Hns as [|? n ? ns' Hn Hns']; subst. constructor; [|by apply IH].
    unfold list_getitem in Hr. destruct (r !! 1) as [l|] eqn:Hl; [|discriminate].
    injection Hr as ->. unfold node_schema_of in Hn. inv_bind Hn. injection Hn as <-.
    apply properties_of_Return in Ha as (info & Hinfo & Hprops).
    exists label, info, a. done.
Qed.

Lemma edges_of_connections_full (rels : list value) (conns : list (value * row))
  (es : list value) :
  Forall2 (λ rel c, ∃ a b, c.2 !! 0 = Some a ∧ c.2 !! 1 = Some b ∧
             rel = VDict [("name", c.1); ("from", a); ("to", b)]) rels conns →
  for_each (edge_of py_str db) rels = Return es →
  Forall2 (λ e c, ∃ from to info props,
             c.2 !! 0 = Some from ∧ c.2 !! 1 = Some to ∧
             conn db (TABLE_INFO py_str c.1) = Return info ∧
             Forall2 describes_column info props ∧
             e = VDict [("label", c.1); ("from", from); ("to", to);
                        ("properties", VList props)]) es conns.
Proof.
  intros Hrels. revert es.
  induction Hrels as [|rel c rels conns (a & b & Ha & Hb & ->) _ IH];
    intros es H; simpl in H.
  - injection H as <-. constructor.
  - inv_bind H. inv_bind H. injection H as <-. constructor; [|by apply IH].
    unfold edge_of in Ha0. simpl in Ha0. inv_bind Ha0. injection Ha0 as <-.
    apply properties_of_Return in Ha2 as (info & Hinfo & Hprops).
    exists a, b, info, a2. done.
Qed.

End SchemaContents.

(** X1: the nodes of the schema are the rows of the node tables, one for
    one and in their order; a node has the second column of its row as its
    label and, as its properties, the name and type columns of the rows of
    that table's [TABLE_INFO], in their order. *)
Theorem get_schema_dict_nodes (py_str : value → string) (db : KuzuDatabaseManager)
  (schema : value) :
  get_schema_dict py_str db = Return schema →
  ∃ node_rows ns es,
    conn db SHOW_NODE_TABLES = Return node_rows ∧
    schema = VDict [("nodes", VList ns); ("edges", VList es)] ∧
    Forall2 (λ r n, ∃ label info props,
               r !! 1 = Some label ∧
               conn db (TABLE_INFO py_str label) = Return info ∧
               Forall2 describes_column info props ∧
               n = VDict [("label", label); ("properties", VList props)]) node_rows ns.
Proof.
  unfold get_schema_dict. intros H.
  inv_bind H. inv_bind H. inv_bind H. inv_bind H. inv_bind H.
  inv_bind H. inv_bind H. injection H as <-.
  exists a, a4, a5. split; [done|]. split; [done|].
  by eapply node_schemas_Return.
Qed.

(** X2: an edge of the schema is, in full, the label of its relationship
    table, the two endpoint columns of its connection row, and the name and
    type columns of the rows of that table's [TABLE_INFO]; there is one edge
    for each connection row and none besides. *)
Theorem get_schema_dict_edges (py_str : value → string) (db : KuzuDatabaseManager)
  (schema : value) :
  get_schema_dict py_str db = Return schema →
  ∃ ns es conns,
    schema = VDict [("nodes", VList ns); ("edges", VList es)] ∧
    catalog_connections py_str db = Return conns ∧
    length es = length conns ∧
    Forall2 (λ e c, ∃ from to info props,
               c.2 !! 0 = Some from ∧ c.2 !! 1 = Some to ∧
               conn db (TABLE_INFO py_str c.1) = Return info ∧
               Forall2 describes_column info props ∧
               e = VDict [("label", c.1); ("from", from); ("to", to);
                          ("properties", VList props)]) es conns.
Proof.
  unfold get_schema_dict, catalog_connections. intros H.
  inv_bind H. inv_bind H. inv_bind H. inv_bind H. inv_bind H.
  inv_bind H. inv_bind H. injection H as <-.
  apply all_relationships_connections in Ha3 as (per_table & Hp & Hrel).
  rewrite Ha1. simpl. rewrite Ha2. simpl. rewrite Hp. simpl.
  pose proof (edges_of_connections_full py_str db _ _ _ Hrel Ha5) as Hes.
  do 3 eexists. split; [done|]. split; [done|]. split; [|exact Hes].
  by eapply Forall2_length.
Qed.

(** ** Introspection: empty catalogs and errors *)

Lemma result_bind_Raise {A B : Type} (m : result A) (f : A → result B) (e : exn) :
  m ≫= f = Raise e → m = Raise e ∨ ∃ a, m = Return a ∧ f a = Raise e.
Proof. destruct m as [a|e']; simpl; [eauto | intros [= ->]; by left]. Qed.

Lemma for_each_Raise {A B : Type} (f : A → result B) (l : list A) (e : exn) :
  for_each f l = Raise e → ∃ x, x ∈ l ∧ f x = Raise e.
Proof.
  induction l as [|x l IH]; simpl; [discriminate|]. intros H.
  apply result_bind_Raise in H as [H | (y & Hy & H)].
  - exists x. split; [left | done].
  - apply result_bind_Raise in H as [H | (ys & Hys & H)]; [|discriminate].
    destruct (IH H) as (x' & Hin & Hx'). exists x'. split; [by right | done].
Qed.

Lemma for_each_total {A B : Type} (f : A → result B) (l : list A) :
  (∀ x, x ∈ l → ∃ y, f x = Return y) → ∃ ys, for_each f l = Return ys.
Proof.
  induction l as [|x l IH]; intros H; simpl; [by eexists|].
  destruct (H x) as [y Hy]; [left|]. rewrite Hy. simpl.
  destruct IH as [ys Hys]; [intros x' Hx'; apply H; by right|].
  rewrite Hys. simpl. by eexists.
Qed.

Lemma list_getitem_Raise (r : row) (i : nat) (e : exn) :
  list_getitem r i = Raise e → e = INDEX_OUT_OF_RANGE ∧ (length r ≤ i)%nat.
Proof.
  unfold list_getitem. destruct (r !! i) as [v|] eqn:Hv; [discriminate|].
  intros [= <-]. split; [done | by apply lookup_ge_None].
Qed.

Section SchemaErrors.

Variable py_str : value → string.
Variable db : KuzuDatabaseManager.

Abbreviation raised_by_database := (raised_by_database db).
Abbreviation short_row := (short_row db).

Lemma column_1_Raise q rows e :
  conn db q = Return rows →
  for_each (λ r, list_getitem r 1) rows = Raise e → short_row e.
Proof.
  intros Hq (r & Hin & Hr)%for_each_Raise.
  apply list_getitem_Raise in Hr as [-> Hlen].
  split; [done|]. exists q, rows, r. repeat split; [done..|lia].
Qed.

Lemma properties_of_Raise tbl_name e :
  properties_of py_str db tbl_name = Raise e → raised_by_database e ∨ short_row e.
Proof.
  unfold properties_of. intros [H | (info & Hinfo & H)]%result_bind_Raise.
  - left. by eexists.
  - right. apply for_each_Raise in H as (r & Hin & Hr).
    unfold property_of in Hr.
    apply result_bind_Raise in Hr as [Hr | (a & _ & Hr)].
    + apply list_getitem_Raise in Hr as [-> Hlen].
      split; [done|]. exists (TABLE_INFO py_str tbl_name), info, r.
      repeat split; [done..|lia].
    + apply result_bind_Raise in Hr as [Hr | (b & _ & Hr)]; [|discriminate].
      apply list_getitem_Raise in Hr as [-> Hlen].
      split; [done|]. exists (TABLE_INFO py_str tbl_name), info, r.
      repeat split; [done..|lia].
Qed.

Lemma relationships_of_Raise tbl_name e :
  relationships_of py_str db tbl_name = Raise e → raised_by_database e ∨ short_row e.
Proof.
  unfold relationships_of. intros [H | (rows & Hrows & H)]%result_bind_Raise.
  - left. by eexists.
  - right. apply for_each_Raise in H as (r & Hin & Hr).
    unfold relationship_of in Hr.
    apply result_bind_Raise in Hr as [Hr | (a & _ & Hr)].
    + apply list_getitem_Raise in Hr as [-> Hlen].
      split; [done|]. exists (SHOW_CONNECTION py_str tbl_name), rows, r.
      repeat split; [done..|lia].
    + apply result_bind_Raise in Hr as [Hr | (b & _ & Hr)]; [|discriminate].
      apply list_getitem_Raise in Hr as [-> Hlen].
      split; [done|]. exists (SHOW_CONNECTION py_str tbl_name), rows, r.
      repeat split; [done..|lia].
Qed.

Lemma get_schema_dict_Raise e :
  get_schema_dict py_str db = Raise e → raised_by_database e ∨ short_row e.
Proof.
  unfold get_schema_dict. intros H.
  apply result_bind_Raise in H as [H | (node_rows & Hnode_rows & H)];
    [left; by eexists|].
  apply result_bind_Raise in H as [H | (nodes & Hnodes & H)];
    [right; by eapply column_1_Raise|].
  apply result_bind_Raise in H as [H | (rel_rows & Hrel_rows & H)];
    [left; by eexists|].
  apply result_bind_Raise in H as [H | (rel_tables & Hrel_tables & H)];
    [right; by eapply column_1_Raise|].
  apply result_bind_Raise in H as [H | (relss & Hrelss & H)].
  { apply for_each_Raise in H as (t & _ & Ht). by eapply relationships_of_Raise. }
  apply result_bind_Raise in H as [H | (ns & Hns & H)].
  { apply for_each_Raise in H as (node & _ & Hn). unfold node_schema_of in Hn.
    apply result_bind_Raise in Hn as [Hn | (props & _ & Hn)]; [|discriminate].
    by eapply properties_of_Raise. }
  apply result_bind_Raise in H as [H | (es & Hes & H)]; [|discriminate].
  apply for_each_Raise in H as (rel & Hin & Hrel).
  apply all_relationships_connections in Hrelss as (per_table & _ & Hshape).
  apply list_elem_of_lookup in Hin as [i Hi].
  destruct (Forall2_lookup_l _ _ _ _ _ Hshape Hi) as (c & _ & a & b & _ & _ & ->).
  unfold edge_of in Hrel. simpl in Hrel.
  apply result_bind_Raise in Hrel as [Hrel | (props & _ & Hrel)]; [|discriminate].
  by eapply properties_of_Raise.
Qed.

End SchemaErrors.

(** X3: with no relationship table in the catalog the schema has no edge,
    and a catalog with no table at all gives the schema with no node and no
    edge rather than an error. *)
Theorem get_schema_dict_no_relationships (py_str : value → string)
  (db : KuzuDatabaseManager) :
  conn db SHOW_REL_TABLES = Return [] →
  (∀ schema, get_schema_dict py_str db = Return schema →
     ∃ ns, schema = VDict [("nodes", VList ns); ("edges", VList [])]) ∧
  (conn db SHOW_NODE_TABLES = Return [] →
     get_schema_dict py_str db = Return (VDict [("nodes", VList []); ("edges", VList [])])).
Proof.
  intros Hrel. split.
  - intros schema H.
    apply get_schema_dict_Return in H as (ns & es & conns & -> & _ & Hc & Hes).
    unfold catalog_connections in Hc. rewrite Hrel in Hc. simpl in Hc.
    injection Hc as <-. inversion Hes. by exists ns.
  - intros Hnode. unfold get_schema_dict. rewrite Hnode. simpl. by rewrite Hrel.
Qed.


(** X5: a row of the node tables with fewer than two columns makes
    [get_schema_dict] raise the [IndexError] of [row[1]]. *)
Theorem get_schema_dict_short_row (py_str : value → string)
  (db : KuzuDatabaseManager) (rows : list row) :
  conn db SHOW_NODE_TABLES = Return rows →
  Exists (λ r, (length r < 2)%nat) rows →
  get_schema_dict py_str db = Raise INDEX_OUT_OF_RANGE.
Proof.
  intros Hrows Hshort. unfold get_schema_dict. rewrite Hrows. simpl.
  destruct (for_each (λ r, list_getitem r 1) rows) as [nodes|e] eqn:Hnodes.
  - exfalso. apply for_each_Return in Hnodes.
    apply Exists_exists in Hshort as (r & Hin & Hlen).
    apply list_elem_of_lookup in Hin as [i Hi].
    destruct (Forall2_lookup_l _ _ _ _ _ Hnodes Hi) as (v & _ & Hv).
    simpl in Hv. unfold list_getitem in Hv.
    destruct (lookup (M:=row) 1 r) as [x|] eqn:Hx; [|discriminate].
    apply lookup_lt_Some in Hx. lia.
  - simpl. apply for_each_Raise in Hnodes as (r & _ & Hr).
    by apply list_getitem_Raise in Hr as [-> _].
Qed.


(** ** The Edge model, in general *)

(** X7: validation of an edge does not read the key [to]: two dicts that
    agree on every other key validate alike, and in every [Edge] that
    validation builds [to] is the same node as [from_]. *)
Theorem Edge_validate_ignores_to (items items' : list (string * value)) :
  (∀ k, k ≠ "to" → dict_get items k = dict_get items' k) →
  Edge_validate (VDict items) = Edge_validate (VDict items') ∧
  ∀ e, Edge_validate (VDict items) = Return e → Edge_to e = Edge_from_ e.
Proof.
  intros Hsame. split; [|intros e; apply Edge_validate_to_from].
  unfold Edge_validate, field_required, Edge_from__alias, Edge_to_alias.
  by rewrite !Hsame.
Qed.

(** ** The pipeline: failures and the way through *)

Section PipelineFacts.

Variable W : Type.
Variable prune_lm : W → string → string → result GraphSchema * W.
Variable text2cypher_lm : W → string → GraphSchema → result Query * W.
Variable generate_answer_lm : W → string → string → string → result Prediction * W.
Variable py_str : value → string.

Abbreviation get_cypher_query_ := (get_cypher_query W prune_lm text2cypher_lm).
Abbreviation run_query_ := (run_query W prune_lm text2cypher_lm).
Abbreviation forward_ := (forward W prune_lm text2cypher_lm generate_answer_lm py_str).
Abbreviation aforward_ := (aforward W prune_lm text2cypher_lm generate_answer_lm py_str).

Lemma get_cypher_query_trace question input_schema (st st1 : state W) r :
  get_cypher_query_ question input_schema st = (r, st1) →
  trace st1 = trace st ++ [CallPrune question input_schema] ∨
  ∃ schema, trace st1 = trace st ++ [CallPrune question input_schema;
                                      CallText2Cypher question schema].
Proof.
  unfold get_cypher_query, mbind, M_bind, prune, text2cypher. simpl.
  destruct (prune_lm _ _ _) as [[schema|e] w1]; simpl.
  - destruct (text2cypher_lm _ _ _) as [[qobj|e] w2]; simpl;
      intros [= <- <-]; simpl; right; exists schema; by rewrite <- app_assoc.
  - intros [= <- <-]. by left.
Qed.

(** X8: an exception raised by one of the two model calls that generate the
    query, of whatever class, goes through [run_query], [forward] and
    [aforward]: the [try] does not cover these calls.  The run stops there,
    with the prune call, or the prune call and the query-generation call, as
    the only events. *)
Theorem forward_generation_raises db question input_schema (st st1 : state W) e :
  get_cypher_query_ question input_schema st = (Raise e, st1) →
  run_query_ db question input_schema st = (Raise e, st1) ∧
  forward_ db question input_schema st = (Raise e, st1) ∧
  aforward_ db question input_schema st = (Raise e, st1) ∧
  (trace st1 = trace st ++ [CallPrune question input_schema] ∨
   ∃ schema, trace st1 = trace st ++ [CallPrune question input_schema;
                                       CallText2Cypher question schema]).
Proof.
  intros Hq.
  pose proof (run_query_generation_raises _ _ _ db _ _ _ _ _ Hq) as Hrun.
  split; [done|].
  rewrite forward_after_run_query, aforward_after_run_query, Hrun.
  split; [done|]. split; [done|]. by eapply get_cypher_query_trace.
Qed.

(** X9: an exception of the database that is no [RuntimeError] goes through
    [run_query], [forward] and [aforward], and nothing is printed. *)
Theorem forward_propagates_other db question input_schema (st st1 : state W) qobj e :
  get_cypher_query_ question input_schema st = (Return qobj, st1) →
  conn db (query qobj) = Raise e →
  isinstance_RuntimeError e = false →
  run_query_ db question input_schema st = (Raise e, st1) ∧
  forward_ db question input_schema st = (Raise e, st1) ∧
  aforward_ db question input_schema st = (Raise e, st1).
Proof.
  intros Hq He Hcls.
  pose proof (run_query_propagates_other _ _ _ db _ _ _ _ _ _ Hq He Hcls) as Hrun.
  split; [done|].
  by rewrite forward_after_run_query, aforward_after_run_query, Hrun.
Qed.

(** X10: when the database returns rows, [forward] asks the answer model
    once, with the question, the query text and [str] of the flattened
    rows, and returns its response; if that call raises, so does [forward]. *)
Theorem forward_answers_from_rows db question input_schema (st st1 : state W)
  qobj rows r w :
  get_cypher_query_ question input_schema st = (Return qobj, st1) →
  conn db (query qobj) = Return rows →
  generate_answer_lm (lm_state st1) question (query qobj) (py_str (VList (concat rows)))
    = (r, w) →
  forward_ db question input_schema st =
    (match r with
     | Return response => Return (Some response)
     | Raise e => Raise e
     end,
     {| lm_state := w;
        trace := trace st1 ++ [CallGenerateAnswer question (query qobj)
                                 (py_str (VList (concat rows)))] |}).
Proof.
  intros Hq Hrows Hans.
  rewrite forward_after_run_query, (run_query_after_generation _ _ _ _ _ _ _ _ _ Hq).
  rewrite Hrows, flatten_rows_concat. unfold generate_answer. rewrite Hans.
  by destruct r.
Qed.

(** X11: a result with no value in it (no row, or only empty rows) is not an
    absent result: [run_query] returns the empty list, and [forward] still
    calls the answer model, with [str] of the empty list as context, instead
    of printing the retry message. *)
Theorem forward_zero_rows db question input_schema (st st1 : state W) qobj rows :
  get_cypher_query_ question input_schema st = (Return qobj, st1) →
  conn db (query qobj) = Return rows →
  Forall (λ r, r = []) rows →
  run_query_ db question input_schema st = (Return (query qobj, Some []), st1) ∧
  trace (forward_ db question input_schema st).2
    = trace st1 ++ [CallGenerateAnswer question (query qobj) (py_str (VList []))].
Proof.
  intros Hq Hrows Hempty.
  assert (concat rows = []) as Hnil.
  { clear Hrows. induction Hempty as [|r rows -> _ IH]; [done | by simpl]. }
  assert (run_query_ db question input_schema st = (Return (query qobj, Some []), st1))
    as Hrun.
  { rewrite (run_query_after_generation _ _ _ _ _ _ _ _ _ Hq), Hrows.
    by rewrite flatten_rows_concat, Hnil. }
  split; [done|].
  rewrite forward_after_run_query, Hrun. unfold generate_answer.
  destruct (generate_answer_lm _ _ _ _) as [[p|e] w]; done.
Qed.

Lemma forward_trace_shape db question input_schema (st st' : state W) r :
  forward_ db question input_schema st = (r, st') →
  ∃ evs,
    trace st' = trace st ++ CallPrune question input_schema :: evs ∧
    Forall (λ ev, is_CallPrune ev = false) evs ∧
    (length (filter (λ ev, is_CallGenerateAnswer ev = true) evs) ≤ 1)%nat ∧
    (length evs ≤ 3)%nat.
Proof.
  unfold forward, run_query, get_cypher_query, try_except_RuntimeError, lift, print,
    mbind, M_bind, mret, M_ret, prune, text2cypher, generate_answer, record.
  simpl.
  destruct (prune_lm _ _ _) as [[schema|e] w1]; simpl;
    [destruct (text2cypher_lm _ _ _) as [[qobj|e] w2]; simpl;
       [destruct (conn db _) as [rows|e]; simpl;
          [destruct (generate_answer_lm _ _ _ _) as [[p|e] w3]; simpl
          |destruct (isinstance_RuntimeError e); simpl] |] |];
    intros [= <- <-]; simpl; eexists;
    (split; [rewrite <- ?app_assoc; simpl; reflexivity |]);
    (split; [repeat constructor |]); simpl; lia.
Qed.

(** X12: every run of [forward] only adds to the trace: first the prune call
    for its own question and schema, then at most three more events, none of
    them a prune call and at most one of them a call of the answer model. *)
Theorem forward_trace db question input_schema (st st' : state W) r :
  forward_ db question input_schema st = (r, st') →
  ∃ evs,
    trace st' = trace st ++ CallPrune question input_schema :: evs ∧
    Forall (λ ev, is_CallPrune ev = false) evs ∧
    (length (filter (λ ev, is_CallGenerateAnswer ev = true) evs) ≤ 1)%nat ∧
    (length evs ≤ 3)%nat.
Proof.
  intros H. destruct (forward_trace_shape _ _ _ _ _ _ H) as (evs & Htrace & Hevs & Hcalls).
  exists evs. split; [exact Htrace|]. split; [exact Hevs | exact Hcalls].
Qed.

End PipelineFacts.

(** ** The batch and [main] *)

Section MainFacts.

Variable W : Type.
Variable prune_lm : W → string → string → result GraphSchema * W.
Variable text2cypher_lm : W → string → GraphSchema → result Query * W.
Variable generate_answer_lm : W → string → string → string → result Prediction * W.
Variable py_str : value → string.

Abbreviation aforward_m := (aforward W prune_lm text2cypher_lm generate_answer_lm py_str).
Abbreviation forward_m := (forward W prune_lm text2cypher_lm generate_answer_lm py_str).
Abbreviation run_batch_m :=
  (run_batch W prune_lm text2cypher_lm generate_answer_lm py_str).
Abbreviation main_m := (main W prune_lm text2cypher_lm generate_answer_lm py_str).

Lemma run_batch_fifo db schema (questions : list string) (st : state W) :
  ∃ results st1,
    run_batch_m (fifo (length questions)) db schema questions st
      = (Return (Some results), st1) ∧
    length results = length questions.
Proof.
  unfold run_batch, fifo.
  destruct (gather_scheduled ((λ question, aforward_m db question schema) <$> questions)
              (seq 0 (length questions)) st) as (results & Hres & Hlen & _).
  { by rewrite length_fmap. }
  destruct (gather _ _ st) as [r st1]. simpl in Hres. subst r.
  exists results, st1. split; [done|]. by rewrite Hlen, length_fmap.
Qed.

(** X13: once introspection has returned a schema, [main] returns normally
    whatever the pipelines do: the batch gives one result for each question,
    and printing that list is the last thing [main] does. *)
Theorem main_returns db (questions : list string) (st : state W) schema :
  get_schema_dict py_str db = Return schema →
  ∃ results st1,
    run_batch_m (fifo (length questions)) db (py_str schema) questions st
      = (Return (Some results), st1) ∧
    length results = length questions ∧
    main_m db questions st = (Return (Some tt), record (PrintResults results) st1).
Proof.
  intros Hschema.
  destruct (run_batch_fifo db (py_str schema) questions st)
    as (results & st1 & Hbatch & Hlen).
  exists results, st1. split; [done|]. split; [done|].
  unfold main, lift. unfold mbind at 1. unfold M_bind at 1. rewrite Hschema.
  unfold mbind at 1. unfold M_bind at 1. by rewrite Hbatch.
Qed.

(** X14: when introspection raises, [main] raises the same exception before
    any question is looked at: no model call is made and nothing is
    printed. *)
Theorem main_introspection_raises db (questions : list string) (st : state W) e :
  get_schema_dict py_str db = Raise e →
  main_m db questions st = (Raise e, st).
Proof.
  intros Hschema. unfold main, lift. unfold mbind at 1. unfold M_bind at 1.
  by rewrite Hschema.
Qed.

Lemma aforward_stateless db question input_schema (st st' : state W) :
  stateless prune_lm text2cypher_lm generate_answer_lm →
  (aforward_m db question input_schema st).1
    = (aforward_m db question input_schema st').1.
Proof.
  intros (Hp & Ht & Ha).
  unfold aforward, run_query, get_cypher_query, try_except_RuntimeError, lift, print,
    mbind, M_bind, mret, M_ret, prune, text2cypher, generate_answer, record.
  simpl.
  specialize (Hp (lm_state st) (lm_state st') question input_schema).
  destruct (prune_lm (lm_state st) _ _) as [r1 w1],
           (prune_lm (lm_state st') _ _) as [r1' w1'].
  simpl in Hp. subst r1'. destruct r1 as [schema|e]; simpl; [|done].
  specialize (Ht w1 w1' question schema).
  destruct (text2cypher_lm w1 _ _) as [r2 w2], (text2cypher_lm w1' _ _) as [r2' w2'].
  simpl in Ht. subst r2'. destruct r2 as [qobj|e]; simpl; [|done].
  destruct (conn db (query qobj)) as [rows|e]; simpl.
  - specialize (Ha w2 w2' question (query qobj) (py_str (VList (flatten_rows rows)))).
    destruct (generate_answer_lm w2 _ _ _) as [r3 w3],
             (generate_answer_lm w2' _ _ _) as [r3' w3'].
    simpl in Ha. subst r3'. by destruct r3.
  - by destruct (isinstance_RuntimeError e).
Qed.

(** X15: with a backend whose answers do not depend on its state, the
    results of the batch are the same on every schedule that starts each
    task once, and from every starting state. *)
Theorem run_batch_schedule_independent order order' db schema
  (questions : list string) (st st' : state W) :
  stateless prune_lm text2cypher_lm generate_answer_lm →
  order ≡ₚ seq 0 (length questions) →
  order' ≡ₚ seq 0 (length questions) →
  (run_batch_m order db schema questions st).1
    = (run_batch_m order' db schema questions st').1.
Proof.
  intros Hstateless Hperm Hperm'. unfold run_batch.
  set (tasks := (λ question, aforward_m db question schema) <$> questions).
  assert (length tasks = length questions) as Htasks by apply length_fmap.
  destruct (gather_scheduled tasks order st) as (results & Hres & Hlen & Hpos);
    [by rewrite Htasks|].
  destruct (gather_scheduled tasks order' st') as (results' & Hres' & Hlen' & Hpos');
    [by rewrite Htasks|].
  rewrite Hres, Hres'. do 2 f_equal. apply list_eq. intros i.
  destruct (decide (i < length questions)%nat) as [Hi|Hi].
  - destruct (lookup_lt_is_Some_2 questions i Hi) as [question Hq].
    assert (tasks !! i = Some (aforward_m db question schema)) as Ht.
    { unfold tasks. by rewrite list_lookup_fmap, Hq. }
    assert (i ∈ order) as Hin by (rewrite Hperm; apply elem_of_seq; lia).
    assert (i ∈ order') as Hin' by (rewrite Hperm'; apply elem_of_seq; lia).
    apply list_elem_of_split in Hin as (pre & post & Ho).
    apply list_elem_of_split in Hin' as (pre' & post' & Ho').
    rewrite (Hpos i _ pre post Ht Ho), (Hpos' i _ pre' post' Ht Ho').
    f_equal. by apply aforward_stateless.
  - rewrite !lookup_ge_None_2; [done | lia | lia].
Qed.

Lemma filter_no_prune (evs : list event) :
  Forall (λ ev, is_CallPrune ev = false) evs →
  filter (λ ev, is_CallPrune ev = true) evs = [].
Proof.
  induction 1 as [|ev evs Hev _ IH]; [done|].
  rewrite filter_cons. destruct (decide (is_CallPrune ev = true)) as [Heq|_]; [|done].
  congruence.
Qed.

Lemma aforward_prune_calls db question input_schema (st st' : state W) r :
  aforward_m db question input_schema st = (r, st') →
  prune_calls st' = prune_calls st ++ [CallPrune question input_schema].
Proof.
  rewrite aforward_after_run_query, <- forward_after_run_query. intros H.
  apply forward_trace_shape in H as (evs & Htrace & Hevs & _).
  unfold prune_calls. rewrite Htrace, filter_app, filter_cons. simpl.
  destruct (decide (true = true)) as [_|Hne]; [|done].
  by rewrite (filter_no_prune _ Hevs).
Qed.

Lemma run_scheduled_fifo_prune_calls db schema (questions : list string) m :
  ∀ k slots (st : state W),
    prune_calls
      (run_scheduled ((λ question, aforward_m db question schema) <$> questions)
         (seq k m) slots st).2
    = prune_calls st ++ map (λ question, CallPrune question schema)
                            (take m (drop k questions)).
Proof.
  induction m as [|m IH]; intros k slots st; simpl.
  - by rewrite app_nil_r.
  - rewrite list_lookup_fmap. destruct (questions !! k) as [question|] eqn:Hq; simpl.
    + destruct (aforward_m db question schema st) as [r st1] eqn:Hrun.
      rewrite IH, (aforward_prune_calls _ _ _ _ _ _ Hrun).
      rewrite (drop_S _ _ _ Hq). simpl. by rewrite <- app_assoc.
    + rewrite IH. apply lookup_ge_None in Hq.
      rewrite !drop_ge by lia. by rewrite take_nil.
Qed.

(** X16: [main] asks for pruning once for each question, in the order of the
    questions, and every time with the same schema text, [str] of the
    schema that introspection returned. *)
Theorem main_prunes_each_question db (questions : list string) (st : state W) schema :
  get_schema_dict py_str db = Return schema →
  prune_calls (main_m db questions st).2
    = prune_calls st ++ map (λ question, CallPrune question (py_str schema)) questions.
Proof.
  intros Hschema.
  destruct (run_batch_fifo db (py_str schema) questions st)
    as (results & st1 & Hbatch & Hlen).
  assert (main_m db questions st = (Return (Some tt), record (PrintResults results) st1))
    as ->.
  { unfold main, lift. unfold mbind at 1. unfold M_bind at 1. rewrite Hschema.
    unfold mbind at 1. unfold M_bind at 1. by rewrite Hbatch. }
  assert (prune_calls st1
          = prune_calls st ++ map (λ question, CallPrune question (py_str schema))
                                  (take (length questions) (drop 0 questions))) as Hst1.
  { rewrite <- (run_scheduled_fifo_prune_calls db (py_str schema) questions
                  (length questions) 0
                  (replicate (length ((λ question, aforward_m db question (py_str schema))
                                        <$> questions)) None) st).
    unfold run_batch, gather, fifo in Hbatch.
    destruct (run_scheduled _ _ _ st) as [slots st2]. by injection Hbatch as _ ->. }
  rewrite drop_0, firstn_all in Hst1.
  unfold prune_calls in *. simpl. rewrite filter_app. simpl.
  by rewrite app_nil_r.
Qed.

End MainFacts.

(** ** The further properties on the instance *)

Lemma get_schema_dict_nodes_witness :
  ∃ node_rows ns es,
    conn ldbc SHOW_NODE_TABLES = Return node_rows ∧
    ldbc_schema = VDict [("nodes", VList ns); ("edges", VList es)] ∧
    Forall2 (λ r n, ∃ label info props,
               r !! 1 = Some label ∧
               conn ldbc (TABLE_INFO example_str label) = Return info ∧
               Forall2 describes_column info props ∧
               n = VDict [("label", label); ("properties", VList props)]) node_rows ns.
Proof. apply (get_schema_dict_nodes example_str ldbc ldbc_schema). reflexivity. Defined.

Lemma get_schema_dict_edges_witness :
  ∃ ns es conns,
    ldbc_schema = VDict [("nodes", VList ns); ("edges", VList es)] ∧
    catalog_connections example_str ldbc = Return conns ∧
    length es = length conns ∧
    Forall2 (λ e c, ∃ from to info props,
               c.2 !! 0 = Some from ∧ c.2 !! 1 = Some to ∧
               conn ldbc (TABLE_INFO example_str c.1) = Return info ∧
               Forall2 describes_column info props ∧
               e = VDict [("label", c.1); ("from", from); ("to", to);
                          ("properties", VList props)]) es conns.
Proof. apply (get_schema_dict_edges example_str ldbc ldbc_schema). reflexivity. Defined.

Lemma get_schema_dict_no_relationships_witness :
  (∀ schema, get_schema_dict example_str blank = Return schema →
     ∃ ns, schema = VDict [("nodes", VList ns); ("edges", VList [])]) ∧
  (conn blank SHOW_NODE_TABLES = Return [] →
     get_schema_dict example_str blank
       = Return (VDict [("nodes", VList []); ("edges", VList [])])).
Proof. apply (get_schema_dict_no_relationships example_str blank). reflexivity. Defined.


Lemma get_schema_dict_short_row_witness :
  get_schema_dict example_str narrow = Raise INDEX_OUT_OF_RANGE.
Proof.
  apply (get_schema_dict_short_row example_str narrow [[VStr "Person"]]).
  - reflexivity.
  - left. simpl. lia.
Defined.


Lemma Edge_validate_ignores_to_witness :
  Edge_validate
    (VDict [("label", VStr "hasCreator");
            ("from", VDict [("label", VStr "Comment"); ("properties", VNone)]);
            ("to", VDict [("label", VStr "Person"); ("properties", VNone)]);
            ("properties", VNone)])
  = Edge_validate
      (VDict [("label", VStr "hasCreator");
              ("from", VDict [("label", VStr "Comment"); ("properties", VNone)]);
              ("properties", VNone)]).
Proof.
  apply (Edge_validate_ignores_to
           [("label", VStr "hasCreator");
            ("from", VDict [("label", VStr "Comment"); ("properties", VNone)]);
            ("to", VDict [("label", VStr "Person"); ("properties", VNone)]);
            ("properties", VNone)]
           [("label", VStr "hasCreator");
            ("from", VDict [("label", VStr "Comment"); ("properties", VNone)]);
            ("properties", VNone)]).
  intros k Hk.
  assert (String.eqb "to" k = false) as Hto by (apply String.eqb_neq; congruence).
  cbn [dict_get]. rewrite Hto. reflexivity.
Defined.

Lemma forward_generation_raises_witness :
  example_run_query ldbc "Q3" "schema" start
    = (Raise (ValidationError "pruned_schema: Field required"),
       {| lm_state := 1; trace := [CallPrune "Q3" "schema"] |}) ∧
  example_forward ldbc "Q3" "schema" start
    = (Raise (ValidationError "pruned_schema: Field required"),
       {| lm_state := 1; trace := [CallPrune "Q3" "schema"] |}).
Proof.
  destruct (forward_generation_raises nat example_prune example_text2cypher
              example_generate_answer example_str ldbc "Q3" "schema" start
              {| lm_state := 1; trace := [CallPrune "Q3" "schema"] |}
              (ValidationError "pruned_schema: Field required"))
    as (Hrun & Hfw & _); [reflexivity|].
  split; [exact Hrun | exact Hfw].
Defined.

Lemma forward_propagates_other_witness :
  example_forward exhausted "Q1" "schema" start
    = (Raise BAD_ALLOC,
       {| lm_state := 2;
          trace := [CallPrune "Q1" "schema";
                    CallText2Cypher "Q1" {| nodes := [Person]; edges := [] |}] |}).
Proof.
  destruct (forward_propagates_other nat example_prune example_text2cypher
              example_generate_answer example_str exhausted "Q1" "schema" start
              {| lm_state := 2;
                 trace := [CallPrune "Q1" "schema";
                           CallText2Cypher "Q1" {| nodes := [Person]; edges := [] |}] |}
              {| query := "RETURN 42;" |} BAD_ALLOC)
    as (_ & Hfw & _); [reflexivity | reflexivity | reflexivity |].
  exact Hfw.
Defined.

Lemma forward_answers_from_rows_witness :
  example_forward ldbc "Q4" "schema" start
    = (Return (Some {| response := "From ['Ada', 1, 'Grace', 2]" |}),
       {| lm_state := 3;
          trace := [CallPrune "Q4" "schema";
                    CallText2Cypher "Q4" {| nodes := [Person]; edges := [] |};
                    CallGenerateAnswer "Q4" "MATCH (p:Person) RETURN p.firstName, p.id;"
                      "['Ada', 1, 'Grace', 2]"] |}).
Proof.
  apply (forward_answers_from_rows nat example_prune example_text2cypher
           example_generate_answer example_str ldbc "Q4" "schema" start
           {| lm_state := 2;
              trace := [CallPrune "Q4" "schema";
                        CallText2Cypher "Q4" {| nodes := [Person]; edges := [] |}] |}
           {| query := "MATCH (p:Person) RETURN p.firstName, p.id;" |}
           [[VStr "Ada"; VInt 1]; [VStr "Grace"; VInt 2]]
           (Return {| response := "From ['Ada', 1, 'Grace', 2]" |}) 3);
    reflexivity.
Defined.

Lemma forward_zero_rows_witness :
  example_run_query blank "Q1" "schema" start
    = (Return ("RETURN 42;", Some []),
       {| lm_state := 2;
          trace := [CallPrune "Q1" "schema";
                    CallText2Cypher "Q1" {| nodes := [Person]; edges := [] |}] |}) ∧
  trace (example_forward blank "Q1" "schema" start).2
    = [CallPrune "Q1" "schema";
       CallText2Cypher "Q1" {| nodes := [Person]; edges := [] |}]
      ++ [CallGenerateAnswer "Q1" "RETURN 42;" (example_str (VList []))].
Proof.
  apply (forward_zero_rows nat example_prune example_text2cypher
           example_generate_answer example_str blank "Q1" "schema" start
           {| lm_state := 2;
              trace := [CallPrune "Q1" "schema";
                        CallText2Cypher "Q1" {| nodes := [Person]; edges := [] |}] |}
           {| query := "RETURN 42;" |} []);
    [reflexivity | reflexivity | constructor].
Defined.

Lemma forward_trace_witness :
  ∃ evs,
    trace (example_forward ldbc "Q2" "schema" start).2
      = trace start ++ CallPrune "Q2" "schema" :: evs ∧
    Forall (λ ev, is_CallPrune ev = false) evs ∧
    (length (filter (λ ev, is_CallGenerateAnswer ev = true) evs) ≤ 1)%nat ∧
    (length evs ≤ 3)%nat.
Proof.
  apply (forward_trace nat example_prune example_text2cypher example_generate_answer
           example_str ldbc "Q2" "schema" start
           (example_forward ldbc "Q2" "schema" start).2
           (example_forward ldbc "Q2" "schema" start).1).
  reflexivity.
Defined.

Abbreviation example_main :=
  (main nat example_prune example_text2cypher example_generate_answer example_str).

Lemma main_returns_witness :
  ∃ results st1,
    example_run_batch (fifo 2) ldbc (example_str ldbc_schema) ["Q1"; "Q2"] start
      = (Return (Some results), st1) ∧
    length results = 2 ∧
    example_main ldbc ["Q1"; "Q2"] start
      = (Return (Some tt), record (PrintResults results) st1).
Proof.
  apply (main_returns nat example_prune example_text2cypher example_generate_answer
           example_str ldbc ["Q1"; "Q2"] start ldbc_schema).
  reflexivity.
Defined.

Lemma main_introspection_raises_witness :
  example_main exhausted ["Q1"; "Q2"] start = (Raise BAD_ALLOC, start).
Proof.
  apply (main_introspection_raises nat example_prune example_text2cypher
           example_generate_answer example_str exhausted ["Q1"; "Q2"] start BAD_ALLOC).
  reflexivity.
Defined.

Lemma example_backend_stateless :
  stateless example_prune example_text2cypher example_generate_answer.
Proof.
  repeat split; intros; unfold example_prune; simpl; [|done..].
  by destruct (String.eqb _ _).
Defined.

Lemma run_batch_schedule_independent_witness :
  (example_run_batch [2; 0; 1] ldbc "schema" ["Q1"; "Q3"; "Q2"] start).1
    = (example_run_batch (fifo 3) ldbc "schema" ["Q1"; "Q3"; "Q2"] start).1.
Proof.
  apply (run_batch_schedule_independent nat example_prune example_text2cypher
           example_generate_answer example_str [2; 0; 1] (fifo 3) ldbc "schema"
           ["Q1"; "Q3"; "Q2"] start start example_backend_stateless).
  - simpl. solve_Permutation.
  - reflexivity.
Defined.

Lemma main_prunes_each_question_witness :
  prune_calls (example_main ldbc ["Q1"; "Q2"] start).2
    = prune_calls start
      ++ map (λ question, CallPrune question (example_str ldbc_schema)) ["Q1"; "Q2"].
Proof.
  apply (main_prunes_each_question nat example_prune example_text2cypher
           example_generate_answer example_str ldbc ["Q1"; "Q2"] start ldbc_schema).
  reflexivity.
Defined.
